(** * PageController: a shallow embedding of [browser_utils/page_controller.py]

    The controller drives a remote web page through Playwright.  The page is
    an external, unreliable peer, so the embedding is parametric in it: every
    Playwright call, every sleep, every evaluation of the caller's disconnect
    predicate and every diagnostic snapshot is an [op] answered by an
    arbitrary handler over an arbitrary page state (class [Browser]).  The
    methods of the class [PageController] become computations in a small
    state/exception/writer monad [M]: the state is the page together with the
    per-session parameter cache (a Python dict, here a [gmap]), exceptions are
    Python exceptions, and the written output is the chronological list of
    everything observable the method did (operations with their outcomes, log
    records, cache mutations).

    Conventions.
    - A Python [str] is a [string] read as a sequence of code points below
      256; [strip], [lower], [int] and [float] follow Python on that range.
    - A Python [float] is a rational, or an infinity, or NaN ([pyfloat]):
      comparisons are Python's, rounding of arithmetic is not modelled.
    - [asyncio.Lock] is not modelled: one task runs at a time.
    - A log record keeps its level and the fixed text of its message; the
      request-id prefix and the interpolated values are dropped. *)

From Stdlib Require Import ZArith QArith Qabs Qminmax String Ascii List Bool Lia DecimalString
  Permutation.
From stdpp Require Import base gmap sets strings list.
Import ListNotations.

Set Warnings "-register-all".
Local Open Scope string_scope.
Local Open Scope Z_scope.

(* ===================================================================== *)
(** * 1. Python data *)
(* ===================================================================== *)

Module Py.

(** ** Strings *)

Definition dq : string := String (ascii_of_nat 34) EmptyString.

(** [quoted s] is [s] between two double-quote characters. *)
Definition quoted (s : string) : string := dq ++ s ++ dq.

(** [str.isspace] on code points below 256. *)
Definition isspace (c : ascii) : bool :=
  let n := nat_of_ascii c in
  ((9 <=? n) && (n <=? 13) || (28 <=? n) && (n <=? 32)
   || (n =? 133) || (n =? 160))%nat.

Fixpoint lstrip (s : string) : string :=
  match s with
  | String c r => if isspace c then lstrip r else s
  | EmptyString => EmptyString
  end.

Fixpoint string_rev (s : string) : string :=
  match s with
  | EmptyString => EmptyString
  | String c r => string_rev r ++ String c EmptyString
  end.

Definition rstrip (s : string) : string := string_rev (lstrip (string_rev s)).

(** [s.strip()] *)
Definition strip (s : string) : string := rstrip (lstrip s).

Fixpoint lstrip_char (ch : ascii) (s : string) : string :=
  match s with
  | String c r => if Ascii.eqb c ch then lstrip_char ch r else s
  | EmptyString => EmptyString
  end.

(** [s.rstrip(ch)] for a one-character argument. *)
Definition rstrip_char (ch : ascii) (s : string) : string :=
  string_rev (lstrip_char ch (string_rev s)).

(** [str.lower] on code points below 256: A-Z, and the Latin-1 capitals
    0xC0-0xDE except the multiplication sign 0xD7. *)
Definition lower_char (c : ascii) : ascii :=
  let n := nat_of_ascii c in
  if ((65 <=? n) && (n <=? 90)
      || (192 <=? n) && (n <=? 222) && negb (n =? 215))%nat
  then ascii_of_nat (n + 32) else c.

Fixpoint lower (s : string) : string :=
  match s with
  | EmptyString => EmptyString
  | String c r => String (lower_char c) (lower r)
  end.

(** [sub in s] *)
Fixpoint contains (sub s : string) : bool :=
  if String.prefix sub s then true
  else match s with
       | EmptyString => false
       | String _ r => contains sub r
       end.

(** [s.split()]: the maximal runs of non-space characters. *)
Fixpoint split_ws_aux (s : string) (cur : string) : list string :=
  match s with
  | EmptyString => if String.eqb cur "" then [] else [string_rev cur]
  | String c r =>
      if isspace c
      then (if String.eqb cur "" then split_ws_aux r "" else string_rev cur :: split_ws_aux r "")
      else split_ws_aux r (String c cur)
  end.

Definition split_ws (s : string) : list string := split_ws_aux s "".

Definition str_of_nat (n : nat) : string := NilEmpty.string_of_uint (Nat.to_uint n).

(** ** Numbers *)

Inductive pyfloat :=
| Finite (q : Q)
| Inf (negative : bool)
| NaN.

(** [a < b] on floats. *)
Definition flt (a b : pyfloat) : bool :=
  match a, b with
  | NaN, _ | _, NaN => false
  | Finite x, Finite y => negb (Qle_bool y x)
  | Inf true, Inf true => false
  | Inf true, _ => true
  | _, Inf true => false
  | Inf false, _ => false
  | Finite _, Inf false => true
  end.

(** [a == b] on floats. *)
Definition feq (a b : pyfloat) : bool :=
  match a, b with
  | Finite x, Finite y => Qeq_bool x y
  | Inf s, Inf s' => Bool.eqb s s'
  | _, _ => false
  end.

(** [a - b] and [abs(a)], without rounding. *)
Definition fsub (a b : pyfloat) : pyfloat :=
  match a, b with
  | NaN, _ | _, NaN => NaN
  | Finite x, Finite y => Finite (x - y)
  | Inf s, Finite _ => Inf s
  | Finite _, Inf s => Inf (negb s)
  | Inf s, Inf s' => if Bool.eqb s s' then NaN else Inf s
  end.

Definition fabs (a : pyfloat) : pyfloat :=
  match a with
  | Finite x => Finite (Qabs x)
  | Inf _ => Inf false
  | NaN => NaN
  end.

(** A Python number as the code meets it: an [int], a [float], or a [bool]
    (a subclass of [int]). *)
Inductive pynum :=
| NInt (z : Z)
| NFloat (f : pyfloat)
| NBool (b : bool).

Definition num_val (n : pynum) : pyfloat :=
  match n with
  | NInt z => Finite (inject_Z z)
  | NFloat f => f
  | NBool b => Finite (if b then 1 else 0)%Q
  end.

Definition num_lt (a b : pynum) : bool := flt (num_val a) (num_val b).
Definition num_eq (a b : pynum) : bool := feq (num_val a) (num_val b).

(** The builtins [min(a, b)] and [max(a, b)]: the first argument is kept
    unless the second is strictly smaller (resp. larger). *)
Definition min2 (a b : pynum) : pynum := if num_lt b a then b else a.
Definition max2 (a b : pynum) : pynum := if num_lt a b then b else a.

(** [abs(a - b) < eps] and [abs(a - b) > eps] *)
Definition abs_diff_lt (a b : pyfloat) (eps : Q) : bool := flt (fabs (fsub a b)) (Finite eps).

(** ** [int(str)] and [float(str)] *)

Definition digit_of (c : ascii) : option Z :=
  let n := nat_of_ascii c in
  if ((48 <=? n) && (n <=? 57))%nat then Some (Z.of_nat (n - 48)) else None.

Definition is_digit (c : ascii) : bool :=
  match digit_of c with Some _ => true | None => false end.

(** Reads the longest prefix [digit (["_"] digit)*] of [s]: the value, the
    number of digits read, and what is left. *)
Fixpoint take_digits (s : string) (acc : Z) (n : nat) : Z * nat * string :=
  match s with
  | EmptyString => (acc, n, s)
  | String c r =>
      match digit_of c with
      | Some d => take_digits r (10 * acc + d) (S n)
      | None =>
          if (Ascii.eqb c "_" && (0 <? n)%nat)%bool
          then match r with
               | String c' r' =>
                   match digit_of c' with
                   | Some d => take_digits r' (10 * acc + d) (S n)
                   | None => (acc, n, s)
                   end
               | EmptyString => (acc, n, s)
               end
          else (acc, n, s)
      end
  end.

(** An optional sign: [true] when negative. *)
Definition take_sign (s : string) : bool * string :=
  match s with
  | String "-" r => (true, r)
  | String "+" r => (false, r)
  | _ => (false, s)
  end.

(** [int(s)] for a string, base 10; [None] is [ValueError]. *)
Definition int_of_str (s : string) : option Z :=
  let '(neg, body) := take_sign (strip s) in
  match take_digits body 0 0%nat with
  | (v, S _, EmptyString) => Some (if neg then - v else v)
  | _ => None
  end.

Definition pow10 (e : Z) : Q := Qpower (10 # 1) e.

(** [float(s)]; [None] is [ValueError]. *)
Definition float_of_str (s : string) : option pyfloat :=
  let '(neg, body) := take_sign (lower (strip s)) in
  if String.eqb body "inf" || String.eqb body "infinity" then Some (Inf neg)
  else if String.eqb body "nan" then Some NaN
  else
    let '(ip, ni, r1) := take_digits body 0 0%nat in
    let '(fp, nf, r2) :=
      match r1 with
      | String "." r => take_digits r 0 0%nat
      | _ => (0, 0%nat, r1)
      end in
    match (ni + nf)%nat with
    | O => None
    | S _ =>
        let mant := (inject_Z ip + inject_Z fp * pow10 (- Z.of_nat nf))%Q in
        let signed := (if neg then - mant else mant)%Q in
        match r2 with
        | EmptyString => Some (Finite (Qred signed))
        | String "e" r =>
            let '(eneg, r3) := take_sign r in
            match take_digits r3 0 0%nat with
            | (ev, S _, EmptyString) =>
                Some (Finite (Qred (signed * pow10 (if eneg then - ev else ev))))
            | _ => None
            end
        | _ => None
        end
    end.

(** ** JSON-like values: what a request or a catalog entry may hold *)

Inductive pyval :=
| PNone
| PBool (b : bool)
| PInt (z : Z)
| PFloat (q : Q)
| PStr (s : string)
| PList (l : list pyval)
| PDict (d : list (string * pyval)).

(** [d.get(k)] on a dict held as an association list; [None] when absent. *)
Fixpoint dict_get (d : list (string * pyval)) (k : string) : option pyval :=
  match d with
  | [] => None
  | (k', v) :: r => if String.eqb k' k then Some v else dict_get r k
  end.

(** [x is not None] for the result of a [get]. *)
Definition is_not_none (o : option pyval) : bool :=
  match o with
  | None | Some PNone => false
  | Some _ => true
  end.

(** [a == b] between a JSON value and a string. *)
Definition eq_str (v : pyval) (s : string) : bool :=
  match v with
  | PStr s' => String.eqb s' s
  | _ => false
  end.

(** The number a JSON value denotes, when it is one. *)
Definition as_num (v : pyval) : option pynum :=
  match v with
  | PInt z => Some (NInt z)
  | PFloat q => Some (NFloat (Finite q))
  | PBool b => Some (NBool b)
  | _ => None
  end.

(** Truncation toward zero, as [int(float)]. *)
Definition trunc (q : Q) : Z := Z.quot (Qnum q) (Zpos (Qden q)).

Inductive conv_error := ConvValueError | ConvTypeError.

(** The builtin [int(v)]. *)
Definition int_of (v : pyval) : conv_error + Z :=
  match v with
  | PInt z => inr z
  | PBool b => inr (if b then 1 else 0)
  | PFloat q => inr (trunc q)
  | PStr s => match int_of_str s with Some z => inr z | None => inl ConvValueError end
  | PNone | PList _ | PDict _ => inl ConvTypeError
  end.

End Py.
Export Py.

(* ===================================================================== *)
(** * 2. The outside world: exceptions, locators, operations *)
(* ===================================================================== *)

(** Python exceptions the controller raises, catches or lets through.  All
    are subclasses of [Exception].  A Playwright error has a [name] property
    that may hold [None]; [TimeoutError] is Playwright's, a subclass of its
    [Error]. *)
Inductive exn :=
| ClientDisconnectedError (stage : string)
| TimeoutError (name : option string)
| PlaywrightError (name : option string)
| AssertionError
| ValueError
| TypeError
| AttributeError
| PyException (msg : string).

Definition is_disconnect (e : exn) : bool :=
  match e with ClientDisconnectedError _ => true | _ => false end.

Definition is_timeout (e : exn) : bool :=
  match e with TimeoutError _ => true | _ => false end.

Definition is_value_error (e : exn) : bool :=
  match e with ValueError => true | _ => false end.

Definition is_value_or_type_error (e : exn) : bool :=
  match e with ValueError | TypeError => true | _ => false end.

Inductive result (A : Type) :=
| Ok (a : A)
| Raise (e : exn).
Arguments Ok {A} a.
Arguments Raise {A} e.

(** The element descriptors of [config] (their text is not part of the
    class), and the literal descriptors written in the class itself. *)
Inductive selector :=
| TEMPERATURE_INPUT_SELECTOR
| MAX_OUTPUT_TOKENS_SELECTOR
| STOP_SEQUENCE_INPUT_SELECTOR
| MAT_CHIP_REMOVE_BUTTON_SELECTOR
| TOP_P_INPUT_SELECTOR
| SUBMIT_BUTTON_SELECTOR
| CLEAR_CHAT_BUTTON_SELECTOR
| CLEAR_CHAT_CONFIRM_BUTTON_SELECTOR
| OVERLAY_SELECTOR
| PROMPT_TEXTAREA_SELECTOR
| RESPONSE_CONTAINER_SELECTOR
| RESPONSE_TEXT_SELECTOR
| EDIT_MESSAGE_BUTTON_SELECTOR
| USE_URL_CONTEXT_SELECTOR
| UPLOAD_BUTTON_SELECTOR
| SET_THINKING_BUDGET_TOGGLE_SELECTOR
| THINKING_BUDGET_INPUT_SELECTOR
| GROUNDING_WITH_GOOGLE_SEARCH_TOGGLE_SELECTOR
| Css (s : string).

(** [page.locator(sel)], [l.first], [l.last], [l.nth(i)], [l.locator(sel)]. *)
Inductive locator :=
| Locator (sel : selector)
| First (l : locator)
| Last (l : locator)
| Nth (l : locator) (i : nat)
| Within (l : locator) (sel : selector).

(** What is written into a field: [str(n)] of a number, or a string. *)
Inductive text :=
| StrOf (n : pynum)
| Lit (s : string).

(** The scripts given to [evaluate]. *)
Inductive script :=
| JsSetValueAndNotify      (* element.value = text; dispatch input, change *)
| JsSetDataValue           (* element.setAttribute("data-value", text) *)
| JsUserAgentDataPlatform  (* navigator.userAgentData?.platform || '' *)
| JsUserAgent.             (* navigator.userAgent || '' *)

(** Every interaction with the world outside the class.  Timeouts are in
    milliseconds ([None]: the call gives none), sleeps in milliseconds. *)
Inductive op :=
(* expect_async(l).to_be_...(timeout) *)
| ToBeVisible (l : locator) (timeout : Z)
| ToBeEnabled (l : locator) (timeout : Z)
| ToBeHidden (l : locator) (timeout : Z)
| ToBeAttached (l : locator) (timeout : Z)
(* reads *)
| InputValue (l : locator) (timeout : Z)
| GetAttribute (l : locator) (name : string)
| Count (l : locator)
| All (l : locator)
| IsVisible (l : locator) (timeout : option Z)
| IsEnabled (l : locator)
| IsDisabled (l : locator) (timeout : Z)
| TextContent (l : locator)
| BoundingBox (l : locator)
| PageUrl
| PageTitle
| PageEvaluate (js : script)
(* writes *)
| Fill (l : locator) (v : text) (timeout : Z)
| Click (l : locator) (timeout : option Z)
| Press (l : locator) (key : string) (timeout : Z)
| Focus (l : locator) (timeout : Z)
| Evaluate (l : locator) (js : script) (arg : string)
| KeyboardPress (key : string)
| KeyboardDown (key : string)
| KeyboardUp (key : string)
| SetInputFiles (l : locator) (files : list string)
| DispatchEvent (l : locator) (type : string) (files : option (list string))
| ExpectFileChooser (timeout : Z)
| FileChooserSetFiles (files : list string)
(* the rest of the environment *)
| Sleep (ms : Z)
| CheckClientDisconnected (stage : string)
| SaveErrorSnapshot (tag : string)
| GetEnv (name : string)
| WaitForResponseCompletion
| GetFinalResponseContent.

(** The Python type of the value an operation returns. *)
Definition ret_type (o : op) : Type :=
  match o with
  | InputValue _ _ | PageUrl | PageTitle | PageEvaluate _ => string
  | GetAttribute _ _ | TextContent _ | BoundingBox _ | GetEnv _
  | GetFinalResponseContent => option string
  | Count _ | All _ => nat
  | IsVisible _ _ | IsEnabled _ | IsDisabled _ _ | CheckClientDisconnected _
  | WaitForResponseCompletion => bool
  | _ => unit
  end.

(** Operations that change the page: clicks, typing, key presses, script
    evaluation on an element, file assignment, synthetic events. *)
Definition is_mutation (o : op) : bool :=
  match o with
  | Fill _ _ _ | Click _ _ | Press _ _ _ | Focus _ _ | Evaluate _ _ _
  | KeyboardPress _ | KeyboardDown _ | KeyboardUp _ | SetInputFiles _ _
  | DispatchEvent _ _ _ | FileChooserSetFiles _ => true
  | _ => false
  end.

(** Operations that read or write the page (everything but sleeping, the
    disconnect predicate, snapshots, the process environment). *)
Definition is_ui (o : op) : bool :=
  match o with
  | Sleep _ | CheckClientDisconnected _ | SaveErrorSnapshot _ | GetEnv _ => false
  | _ => true
  end.

(** The root [page.locator(sel)] a locator was derived from. *)
Fixpoint root_selector (l : locator) : selector :=
  match l with
  | Locator s => s
  | First l | Last l | Nth l _ | Within l _ => root_selector l
  end.

(** The locator an operation addresses, if it addresses one. *)
Definition op_locator (o : op) : option locator :=
  match o with
  | ToBeVisible l _ | ToBeEnabled l _ | ToBeHidden l _ | ToBeAttached l _
  | InputValue l _ | GetAttribute l _ | Count l | All l | IsVisible l _
  | IsEnabled l | IsDisabled l _ | TextContent l | BoundingBox l
  | Fill l _ _ | Click l _ | Press l _ _ | Focus l _ | Evaluate l _ _
  | SetInputFiles l _ | DispatchEvent l _ _ => Some l
  | _ => None
  end.

Inductive level := DEBUG | INFO | WARNING | ERROR.

(** The values the parameter cache holds. *)
Inductive cval :=
| CNum (n : pynum)
| CSet (s : gset string).

(** What a method did, in order. *)
Inductive event :=
| EvOp (o : op) (r : result (ret_type o))
| EvLog (lv : level) (msg : string)
| EvCacheSet (key : string) (v : cval)
| EvCachePop (key : string).

(** The browser, the caller's disconnect predicate and the other external
    collaborators: any state, any answers. *)
Class Browser := {
  page : Type;
  handle : forall o : op, page -> result (ret_type o) * page
}.

(** The constants of [config] the class reads. *)
Class Config := {
  CLICK_TIMEOUT_MS : Z;
  WAIT_FOR_ELEMENT_TIMEOUT_MS : Z;
  CLEAR_CHAT_VERIFY_TIMEOUT_MS : Z;
  DEFAULT_TEMPERATURE : pyval;
  DEFAULT_MAX_OUTPUT_TOKENS : pyval;
  DEFAULT_STOP_SEQUENCES : pyval;
  DEFAULT_TOP_P : pyval;
  ENABLE_URL_CONTEXT : bool;
  ENABLE_THINKING_BUDGET : bool;
  DEFAULT_THINKING_BUDGET : Z;
  ENABLE_GOOGLE_SEARCH : bool
}.

(* ===================================================================== *)
(** * 3. The monad of the controller's methods *)
(* ===================================================================== *)

Declare Scope io_scope.
Delimit Scope io_scope with io.

Section Monad.
Context `{Browser}.

(** The page and [page_params_cache], the dict shared by all the calls of a
    session. *)
Record state := State { s_page : page; s_cache : gmap string cval }.

Definition M (A : Type) : Type := state -> result A * state * list event.

Definition ret {A} (a : A) : M A := fun s => (Ok a, s, []).

Definition bind {A B} (m : M A) (f : A -> M B) : M B := fun s =>
  match m s with
  | (Ok a, s1, t1) => let '(r, s2, t2) := f a s1 in (r, s2, (t1 ++ t2)%list)
  | (Raise e, s1, t1) => (Raise e, s1, t1)
  end.

(** [raise e] *)
Definition raise {A} (e : exn) : M A := fun s => (Raise e, s, []).

(** [try: m  except Exception as e: h e] *)
Definition try_except {A} (m : M A) (h : exn -> M A) : M A := fun s =>
  match m s with
  | (Ok a, s1, t1) => (Ok a, s1, t1)
  | (Raise e, s1, t1) => let '(r, s2, t2) := h e s1 in (r, s2, (t1 ++ t2)%list)
  end.

(** One interaction with the outside world. *)
Definition perform (o : op) : M (ret_type o) := fun s =>
  let '(r, p) := handle o (s_page s) in
  (r, State p (s_cache s), [EvOp o r]).

(** [self.logger.<level>(msg)] *)
Definition log (lv : level) (msg : string) : M unit := fun s => (Ok tt, s, [EvLog lv msg]).

(** [page_params_cache.get(key)] *)
Definition cache_get (key : string) : M (option cval) := fun s => (Ok (s_cache s !! key), s, []).

(** [page_params_cache[key] = v] *)
Definition cache_set (key : string) (v : cval) : M unit := fun s =>
  (Ok tt, State (s_page s) (<[key := v]> (s_cache s)), [EvCacheSet key v]).

(** [page_params_cache.pop(key, None)] *)
Definition cache_pop (key : string) : M unit := fun s =>
  (Ok tt, State (s_page s) (delete key (s_cache s)), [EvCachePop key]).

End Monad.

Notation "x <- m ;; k" := (bind m (fun x => k))
  (at level 100, m at next level, right associativity) : io_scope.
Notation "m ;; k" := (bind m (fun _ => k))
  (at level 100, right associativity) : io_scope.
Notation "'await' o" := (perform o) (at level 10, o at level 9) : io_scope.

(** The three parts of the outcome of running a method. *)
Definition res_of {S A} (x : result A * S * list event) : result A := fst (fst x).
Definition state_of {S A} (x : result A * S * list event) : S := snd (fst x).
Definition trace_of {S A} (x : result A * S * list event) : list event := snd x.

(** ** Reading traces *)

(** The operations of a trace, in order. *)
Definition ops_of (t : list event) : list op :=
  omap (fun e => match e with EvOp o _ => Some o | _ => None end) t.

(** The page reads and writes of a trace. *)
Definition ui_ops (t : list event) : list op := filter (fun o => is_ui o = true) (ops_of t).

(** The log records of a trace at a given level. *)
Definition logged (lv : level) (t : list event) : list string :=
  omap (fun e => match e with
                 | EvLog l m => match lv, l with
                                | DEBUG, DEBUG | INFO, INFO | WARNING, WARNING | ERROR, ERROR => Some m
                                | _, _ => None
                                end
                 | _ => None
                 end) t.

(** Did this event see the disconnect predicate answer true? *)
Definition saw_disconnect (e : event) : bool :=
  match e with
  | EvOp o r =>
      match o return result (ret_type o) -> bool with
      | CheckClientDisconnected _ => fun r => match r with Ok true => true | _ => false end
      | _ => fun _ => false
      end r
  | _ => false
  end.


(** The events that follow the first checkpoint at which the predicate
    answered true. *)
Fixpoint after_disconnect (t : list event) : option (list event) :=
  match t with
  | [] => None
  | e :: r => if saw_disconnect e then Some r else after_disconnect r
  end.

(* ===================================================================== *)
(** * 4. class PageController *)
(* ===================================================================== *)

Section Controller.
Context `{Browser} `{Config}.
Local Open Scope io_scope.

Definition when (b : bool) (m : M unit) : M unit := if b then m else ret tt.

(** A value used as a number: arithmetic and ordering against a number
    raise [TypeError] on anything else. *)
Definition number (v : pyval) : M pynum :=
  match as_num v with
  | Some n => ret n
  | None => raise TypeError
  end.

(** [float(s)] and [int(s)] on a string read from the page. *)
Definition float_ (s : string) : M pyfloat :=
  match float_of_str s with
  | Some f => ret f
  | None => raise ValueError
  end.

Definition int_ (s : string) : M Z :=
  match int_of_str s with
  | Some z => ret z
  | None => raise ValueError
  end.

(** [for x in l: body x] *)
Fixpoint for_each {A} (l : list A) (body : A -> M unit) : M unit :=
  match l with
  | [] => ret tt
  | x :: r => body x;; for_each r body
  end.

(** [for x in l: if body x: return True] followed by [return False]. *)
Fixpoint first_success {A} (l : list A) (body : A -> M bool) : M bool :=
  match l with
  | [] => ret false
  | x :: r => b <- body x;; if b then ret true else first_success r body
  end.

(** ** _check_disconnect *)
Definition _check_disconnect (stage : string) : M unit :=
  b <- await (CheckClientDisconnected stage);;
  if b then raise (ClientDisconnectedError stage) else ret tt.

(** ** _parse_thinking_budget *)
Definition effort_map (k : string) : option Z :=
  if String.eqb k "low" then Some 1000
  else if String.eqb k "medium" then Some 8000
  else if String.eqb k "high" then Some 24000
  else None.

Definition _parse_thinking_budget (reasoning_effort : pyval) : M (option pynum) :=
  token_budget <-
    match reasoning_effort with
    | PNone =>
        log INFO "'reasoning_effort' 为空，使用默认思考预算";;
        ret (Some (NInt DEFAULT_THINKING_BUDGET))
    | PInt z => ret (Some (NInt z))
    | PBool b => ret (Some (NBool b))
    | PStr s =>
        if String.eqb (lower s) "none"
        then log INFO "'reasoning_effort' 为 'none' 字符串，使用默认思考预算";;
             ret (Some (NInt DEFAULT_THINKING_BUDGET))
        else match effort_map (lower s) with
             | Some n => ret (Some (NInt n))
             | None =>
                 match int_of_str s with
                 | Some n => ret (Some (NInt n))
                 | None => ret None
                 end
             end
    | PFloat _ | PList _ | PDict _ => ret None
    end;;
  when (match token_budget with None => true | Some _ => false end)
       (log WARNING "无法从 reasoning_effort 解析出有效的 token_budget。");;
  ret token_budget.

(** ** _adjust_thinking_budget *)

(** The [try] statement of [_adjust_thinking_budget]. *)
Definition sync_thinking_budget_input (token_budget : pynum) : M unit :=
  let budget_input_locator := Locator THINKING_BUDGET_INPUT_SELECTOR in
  try_except
    (await (ToBeVisible budget_input_locator 5000);;
     _check_disconnect "思考预算调整 - 输入框可见后";;
     log INFO "设置思考预算";;
     await (Fill budget_input_locator (StrOf token_budget) 5000);;
     _check_disconnect "思考预算调整 - 填充输入框后";;
     await (Sleep 100);;
     new_value_str <- await (InputValue budget_input_locator 3000);;
     new_value <- int_ new_value_str;;
     if num_eq (NInt new_value) token_budget
     then log INFO "✅ 思考预算已成功更新"
     else log WARNING "⚠️ 思考预算更新后验证失败。")
    (fun e =>
       log ERROR "❌ 调整思考预算时出错";;
       if is_disconnect e then raise e else ret tt).

Definition _adjust_thinking_budget (reasoning_effort : pyval) : M unit :=
  log INFO "检查并调整思考预算";;
  token_budget <- _parse_thinking_budget reasoning_effort;;
  match token_budget with
  | None => log WARNING "无效的 reasoning_effort 值。跳过调整。"
  | Some token_budget => sync_thinking_budget_input token_budget
  end.

(** ** _should_enable_google_search *)

(** One step of the loop over [tools]: [Some true] is [break] with the tool
    found, [Some false] goes on, [None] is the [AttributeError] of calling
    [.get] on a ['function'] entry that is not a dict. *)
Definition is_google_search_tool (tool : pyval) : option bool :=
  match tool with
  | PDict d =>
      if is_not_none (dict_get d "google_search_retrieval") then Some true
      else match dict_get d "function" with
           | None => Some false
           | Some (PDict f) =>
               Some (match dict_get f "name" with
                     | Some v => eq_str v "googleSearch"
                     | None => false
                     end)
           | Some _ => None
           end
  | _ => Some false
  end.

Fixpoint has_google_search_tool (tools : list pyval) : M bool :=
  match tools with
  | [] => ret false
  | tool :: r =>
      match is_google_search_tool tool with
      | None => raise AttributeError
      | Some true => ret true
      | Some false => has_google_search_tool r
      end
  end.

Definition _should_enable_google_search (request_params : gmap string pyval) : M bool :=
  if is_not_none (request_params !! "tools") then
    found <- match request_params !! "tools" with
             | Some (PList tools) => has_google_search_tool tools
             | _ => ret false
             end;;
    log INFO "请求中包含 'tools' 参数。";;
    ret found
  else
    log INFO "请求中不包含 'tools' 参数。使用默认配置 ENABLE_GOOGLE_SEARCH";;
    ret ENABLE_GOOGLE_SEARCH.

Definition is_true_attr (a : option string) : bool :=
  match a with
  | Some s => String.eqb s "true"
  | None => false
  end.

(** ** _adjust_google_search *)
Definition _adjust_google_search (request_params : gmap string pyval) : M unit :=
  log INFO "检查并调整 Google Search 开关...";;
  should_enable_search <- _should_enable_google_search request_params;;
  let toggle_locator := Locator GROUNDING_WITH_GOOGLE_SEARCH_TOGGLE_SELECTOR in
  try_except
    (await (ToBeVisible toggle_locator 5000);;
     _check_disconnect "Google Search 开关 - 元素可见后";;
     is_checked_str <- await (GetAttribute toggle_locator "aria-checked");;
     let is_currently_checked := is_true_attr is_checked_str in
     log INFO "Google Search 开关当前状态";;
     if negb (Bool.eqb should_enable_search is_currently_checked) then
       let action := if should_enable_search then "打开" else "关闭" in
       log INFO "Google Search 开关状态与期望不符。正在点击...";;
       await (Click toggle_locator (Some CLICK_TIMEOUT_MS));;
       _check_disconnect ("Google Search 开关 - 点击" ++ action ++ "后");;
       await (Sleep 500);;
       new_state <- await (GetAttribute toggle_locator "aria-checked");;
       if Bool.eqb (is_true_attr new_state) should_enable_search
       then log INFO "✅ Google Search 开关已成功切换。"
       else log WARNING "⚠️ Google Search 开关切换失败。"
     else log INFO "Google Search 开关已处于期望状态，无需操作。")
    (fun e =>
       log ERROR "❌ 操作 'Google Search toggle' 开关时发生错误";;
       if is_disconnect e then raise e else ret tt).

(** ** _open_url_content *)
Definition _open_url_content : M unit :=
  try_except
    (let collapse_tools_locator :=
       Locator (Css ("button[aria-label=" ++ quoted "Expand or collapse tools" ++ "]")) in
     let grandparent_locator := Within collapse_tools_locator (Css "xpath=../..") in
     class_string <- await (GetAttribute grandparent_locator "class");;
     when (match class_string with
           | Some c => negb (String.eqb c "")
                       && negb (existsb (String.eqb "expanded") (split_ws c))
           | None => false
           end)
          (await (Click collapse_tools_locator (Some CLICK_TIMEOUT_MS));;
           await (Sleep 500));;
     let use_url_content_selector := Locator USE_URL_CONTEXT_SELECTOR in
     is_checked <- await (GetAttribute use_url_content_selector "aria-checked");;
     when (match is_checked with Some c => String.eqb "false" c | None => false end)
          (await (Click use_url_content_selector (Some CLICK_TIMEOUT_MS));;
           _check_disconnect "点击URLCONTEXT"))
    (fun e => log ERROR "❌ 操作USE_URL_CONTEXT_SELECTOR时发生错误").

(** ** _control_thinking_budget_toggle *)
Definition _control_thinking_budget_toggle (should_be_checked : bool) : M unit :=
  let toggle_locator := Locator SET_THINKING_BUDGET_TOGGLE_SELECTOR in
  log INFO "控制 'Thinking Budget' 开关";;
  try_except
    (await (ToBeVisible toggle_locator 5000);;
     _check_disconnect "思考预算开关 - 元素可见后";;
     is_checked_str <- await (GetAttribute toggle_locator "aria-checked");;
     let current_state_is_checked := is_true_attr is_checked_str in
     log INFO "思考预算开关当前 'aria-checked' 状态";;
     if negb (Bool.eqb current_state_is_checked should_be_checked) then
       let action := if should_be_checked then "启用" else "禁用" in
       log INFO "思考预算开关当前状态与期望不符，正在点击...";;
       await (Click toggle_locator (Some CLICK_TIMEOUT_MS));;
       _check_disconnect ("思考预算开关 - 点击" ++ action ++ "后");;
       await (Sleep 500);;
       new_state_str <- await (GetAttribute toggle_locator "aria-checked");;
       let new_state_is_checked := is_true_attr new_state_str in
       if Bool.eqb new_state_is_checked should_be_checked
       then log INFO "✅ 'Thinking Budget' 开关已成功切换。"
       else log WARNING "⚠️ 'Thinking Budget' 开关切换后验证失败。"
     else log INFO "'Thinking Budget' 开关已处于期望状态，无需操作。")
    (fun e =>
       log ERROR "❌ 操作 'Thinking Budget toggle' 开关时发生错误";;
       if is_disconnect e then raise e else ret tt).

(** ** _handle_thinking_budget *)
Definition _handle_thinking_budget (request_params : gmap string pyval) : M unit :=
  match request_params !! "reasoning_effort" with
  | Some PNone | None =>
      log INFO "用户未指定 reasoning_effort，根据默认配置 ENABLE_THINKING_BUDGET。";;
      _control_thinking_budget_toggle ENABLE_THINKING_BUDGET;;
      when ENABLE_THINKING_BUDGET (_adjust_thinking_budget PNone)
  | Some reasoning_effort =>
      log INFO "用户指定了 reasoning_effort。";;
      _control_thinking_budget_toggle true;;
      _adjust_thinking_budget reasoning_effort
  end.

(** ** _adjust_temperature *)

(** The [try] statement of [_adjust_temperature]: read the input, write the
    clamped value when it differs, read again, and update the cache. *)
Definition sync_temperature_input (clamped_temp : pynum) : M unit :=
  let temp_input_locator := Locator TEMPERATURE_INPUT_SELECTOR in
  try_except
    (await (ToBeVisible temp_input_locator 5000);;
     _check_disconnect "温度调整 - 输入框可见后";;
     current_temp_str <- await (InputValue temp_input_locator 3000);;
     _check_disconnect "温度调整 - 读取输入框值后";;
     current_temp_float <- float_ current_temp_str;;
     log INFO "页面当前温度, 请求调整后温度";;
     if abs_diff_lt current_temp_float (num_val clamped_temp) (1 # 1000) then
       log INFO "页面当前温度与请求温度一致。更新缓存并跳过写入。";;
       cache_set "temperature" (CNum (NFloat current_temp_float))
     else
       log INFO "页面温度与请求温度不同，正在更新...";;
       await (Fill temp_input_locator (StrOf clamped_temp) 5000);;
       _check_disconnect "温度调整 - 填充输入框后";;
       await (Sleep 100);;
       new_temp_str <- await (InputValue temp_input_locator 3000);;
       new_temp_float <- float_ new_temp_str;;
       if abs_diff_lt new_temp_float (num_val clamped_temp) (1 # 1000) then
         log INFO "✅ 温度已成功更新。更新缓存。";;
         cache_set "temperature" (CNum (NFloat new_temp_float))
       else
         log WARNING "⚠️ 温度更新后验证失败。清除缓存中的温度。";;
         cache_pop "temperature";;
         await (SaveErrorSnapshot "temperature_verify_fail"))
    (fun e =>
       if is_value_error e then
         log ERROR "转换温度值为浮点数时出错。清除缓存中的温度。";;
         cache_pop "temperature";;
         await (SaveErrorSnapshot "temperature_value_error")
       else
         log ERROR "❌ 操作温度输入框时发生错误。清除缓存中的温度。";;
         cache_pop "temperature";;
         await (SaveErrorSnapshot "temperature_playwright_error");;
         if is_disconnect e then raise e else ret tt).

Definition _adjust_temperature (temperature : pyval) : M unit :=
  log INFO "检查并调整温度设置...";;
  t <- number temperature;;
  let clamped_temp := max2 (NFloat (Finite 0)) (min2 (NFloat (Finite 2)) t) in
  when (negb (num_eq clamped_temp t))
       (log WARNING "请求的温度超出范围 [0, 2]，已调整");;
  cached_temp <- cache_get "temperature";;
  hit <- match cached_temp with
         | None => ret false
         | Some (CNum c) => ret (abs_diff_lt (num_val c) (num_val clamped_temp) (1 # 1000))
         | Some (CSet _) => raise TypeError
         end;;
  if hit then log INFO "温度与缓存值一致。跳过页面交互。"
  else
    log INFO "请求温度与缓存值不一致或缓存中无值。需要与页面交互。";;
    sync_temperature_input clamped_temp.

(** ** _adjust_max_tokens *)

(** [next((m for m in parsed_model_list if m.get("id") == model_id), None)] *)
Fixpoint find_model (parsed_model_list : list (list (string * pyval))) (model_id : string)
  : option (list (string * pyval)) :=
  match parsed_model_list with
  | [] => None
  | m :: r =>
      if match dict_get m "id" with Some v => eq_str v model_id | None => false end
      then Some m else find_model r model_id
  end.




(** ** _adjust_stop_sequences *)

(** The set built from the request's [stop]: a string or a list of strings,
    each stripped, the empty ones dropped. *)
Definition add_stop (acc : gset string) (v : pyval) : gset string :=
  match v with
  | PStr s => if String.eqb (strip s) "" then acc else acc ∪ {[ strip s ]}
  | _ => acc
  end.

Definition normalized_requested_stops (stop_sequences : pyval) : gset string :=
  match stop_sequences with
  | PStr _ => add_stop ∅ stop_sequences
  | PList l => fold_left add_stop l ∅
  | _ => ∅
  end.

(** The [while] loop that clicks the first chip's remove button;
    [remaining] is [max_removals - removed_count]. *)
Fixpoint remove_chips (remove_chip_buttons_locator : locator) (remaining : nat) : M unit :=
  n <- await (Count remove_chip_buttons_locator);;
  if (0 <? n)%nat then
    match remaining with
    | O => ret tt
    | S remaining' =>
        _check_disconnect "停止序列清除 - 循环开始";;
        removed <- try_except
                     (await (Click (First remove_chip_buttons_locator) (Some 2000));;
                      await (Sleep 150);;
                      ret true)
                     (fun _ => ret false);;
        if removed then remove_chips remove_chip_buttons_locator remaining' else ret tt
    end
  else ret tt.

(** The [try] statement of [_adjust_stop_sequences]: remove the chips shown,
    type the requested sequences, update the cache. *)
Definition sync_stop_sequences (stops : gset string) : M unit :=
  let stop_input_locator := Locator STOP_SEQUENCE_INPUT_SELECTOR in
  let remove_chip_buttons_locator := Locator MAT_CHIP_REMOVE_BUTTON_SELECTOR in
  try_except
    (initial_chip_count <- await (Count remove_chip_buttons_locator);;
     let max_removals := (initial_chip_count + 5)%nat in
     remove_chips remove_chip_buttons_locator max_removals;;
     when (negb (bool_decide (stops = ∅)))
          (await (ToBeVisible stop_input_locator 5000);;
           for_each (elements stops) (fun seq =>
             await (Fill stop_input_locator (Lit seq) 3000);;
             await (Press stop_input_locator "Enter" 3000);;
             await (Sleep 200)));;
     cache_set "stop_sequences" (CSet stops);;
     log INFO "✅ 停止序列已成功设置。缓存已更新。")
    (fun e =>
       log ERROR "❌ 设置停止序列时出错";;
       cache_pop "stop_sequences";;
       await (SaveErrorSnapshot "stop_sequence_error");;
       if is_disconnect e then raise e else ret tt).

Definition _adjust_stop_sequences (stop_sequences : pyval) : M unit :=
  log INFO "检查并设置停止序列...";;
  let stops := normalized_requested_stops stop_sequences in
  cached_stops_set <- cache_get "stop_sequences";;
  if match cached_stops_set with
     | Some (CSet c) => bool_decide (c = stops)
     | _ => false
     end
  then log INFO "请求的停止序列与缓存值一致。跳过页面交互。"
  else sync_stop_sequences stops.





(** ** clear_chat_history and its helpers *)

(** How one pass through the body of a [for] loop ends. *)
Inductive flow := Break | Continue | Fallthrough.

(** [range(n)] *)
Definition range (n : nat) : list nat := seq 0 n.

(** The loop of [_execute_chat_clear] that waits for the confirmation dialog
    to go away, over the attempts still to make. *)
Fixpoint wait_dialog_gone (confirm_button_locator overlay_locator : locator)
    (max_retries_disappear : nat) (attempts : list nat) : M unit :=
  match attempts with
  | [] => ret tt
  | attempt_disappear :: rest =>
      f <- try_except
             (log INFO "等待清空聊天确认按钮/对话框消失...";;
              await (ToBeHidden confirm_button_locator CLEAR_CHAT_VERIFY_TIMEOUT_MS);;
              await (ToBeHidden overlay_locator 1000);;
              log INFO "✅ 清空聊天确认对话框已成功消失。";;
              ret Break)
             (fun e =>
                if is_timeout e then
                  log WARNING "⚠️ 等待清空聊天确认对话框消失超时。";;
                  if (attempt_disappear <? max_retries_disappear - 1)%nat then
                    await (Sleep 1000);;
                    _check_disconnect ("清空聊天 - 重试消失检查 "
                                       ++ str_of_nat (attempt_disappear + 1) ++ " 前");;
                    ret Continue
                  else
                    log ERROR "达到最大重试次数。清空聊天确认对话框未消失。";;
                    await (SaveErrorSnapshot "clear_chat_dialog_disappear_timeout");;
                    raise (PyException "达到最大重试次数。清空聊天确认对话框未消失。")
                else if is_disconnect e then
                  log INFO "客户端在等待清空确认对话框消失时断开连接。";;
                  raise e
                else
                  log WARNING "等待清空确认对话框消失时发生其他错误";;
                  if (attempt_disappear <? max_retries_disappear - 1)%nat then
                    await (Sleep 1000);;
                    ret Continue
                  else raise e);;
      match f with
      | Break => ret tt
      | Continue =>
          wait_dialog_gone confirm_button_locator overlay_locator max_retries_disappear rest
      | Fallthrough =>
          _check_disconnect ("清空聊天 - 消失检查尝试 "
                             ++ str_of_nat (attempt_disappear + 1) ++ " 后");;
          wait_dialog_gone confirm_button_locator overlay_locator max_retries_disappear rest
      end
  end.

Definition _execute_chat_clear (clear_chat_button_locator confirm_button_locator
    overlay_locator : locator) : M unit :=
  overlay_initially_visible <-
    try_except
      (v <- await (IsVisible overlay_locator (Some 1000));;
       if v then log INFO "清空聊天确认遮罩层已可见。直接点击继续。";; ret true
       else ret false)
      (fun e =>
         if is_timeout e then log INFO "清空聊天确认遮罩层初始不可见 (检查超时或未找到)。";; ret false
         else log WARNING "检查遮罩层可见性时发生错误。假定不可见。";; ret false);;
  _check_disconnect "清空聊天 - 初始遮罩层检查后";;
  (if overlay_initially_visible then
     log INFO "点击继续按钮 (遮罩层已存在)";;
     await (Click confirm_button_locator (Some CLICK_TIMEOUT_MS))
   else
     log INFO "点击清空聊天按钮";;
     await (Click clear_chat_button_locator (Some CLICK_TIMEOUT_MS));;
     _check_disconnect ("清空聊天 - 点击" ++ quoted "清空聊天" ++ "后");;
     try_except
       (log INFO "等待清空聊天确认遮罩层出现";;
        await (ToBeVisible overlay_locator WAIT_FOR_ELEMENT_TIMEOUT_MS);;
        log INFO "清空聊天确认遮罩层已出现。")
       (fun e =>
          if is_timeout e then
            log ERROR "等待清空聊天确认遮罩层超时 (点击清空按钮后)。";;
            await (SaveErrorSnapshot "clear_chat_overlay_timeout");;
            raise (PyException "等待清空聊天确认遮罩层超时 (点击清空按钮后)。")
          else raise e);;
     _check_disconnect "清空聊天 - 遮罩层出现后";;
     log INFO "点击继续按钮 (在对话框中)";;
     await (Click confirm_button_locator (Some CLICK_TIMEOUT_MS)));;
  _check_disconnect ("清空聊天 - 点击" ++ quoted "继续" ++ "后");;
  let max_retries_disappear := 3%nat in
  wait_dialog_gone confirm_button_locator overlay_locator max_retries_disappear
                   (range max_retries_disappear).

Definition _verify_chat_cleared : M unit :=
  let last_response_container := Last (Locator RESPONSE_CONTAINER_SELECTOR) in
  await (Sleep 500);;
  _check_disconnect "After Clear Post-Delay";;
  try_except
    (await (ToBeHidden last_response_container (CLEAR_CHAT_VERIFY_TIMEOUT_MS - 500));;
     log INFO "✅ 聊天已成功清空 (验证通过 - 最后响应容器隐藏)。")
    (fun _ => log WARNING "⚠️ 警告: 清空聊天验证失败 (最后响应容器未隐藏)").

(** [hasattr(e, 'name')] with the value of [e.name]. *)
Definition exn_name (e : exn) : option (option string) :=
  match e with
  | TimeoutError n | PlaywrightError n => Some n
  | _ => None
  end.

(** [isinstance(e, ClientDisconnectedError) or (hasattr(e, 'name') and
    'Disconnect' in e.name)]; the membership test on [None] is a [TypeError]. *)
Definition is_disconnect_like (e : exn) : M bool :=
  if is_disconnect e then ret true
  else match exn_name e with
       | None => ret false
       | Some None => raise TypeError
       | Some (Some n) => ret (contains "Disconnect" n)
       end.

Definition clear_chat_history : M unit :=
  log INFO "开始清空聊天记录...";;
  _check_disconnect "Start Clear Chat";;
  try_except
    (let submit_button_locator := Locator SUBMIT_BUTTON_SELECTOR in
     try_except
       (log INFO "尝试检查发送按钮状态...";;
        await (ToBeEnabled submit_button_locator 1000);;
        log INFO "发送按钮可用，尝试点击并等待1秒...";;
        await (Click submit_button_locator (Some CLICK_TIMEOUT_MS));;
        await (Sleep 1000);;
        log INFO "发送按钮点击并等待完成。")
       (fun _ => log INFO "发送按钮不可用或检查/点击时发生Playwright错误。符合预期,继续检查清空按钮。");;
     let clear_chat_button_locator := Locator CLEAR_CHAT_BUTTON_SELECTOR in
     let confirm_button_locator := Locator CLEAR_CHAT_CONFIRM_BUTTON_SELECTOR in
     let overlay_locator := Locator OVERLAY_SELECTOR in
     can_attempt_clear <-
       try_except
         (await (ToBeEnabled clear_chat_button_locator 3000);;
          log INFO "清空聊天按钮可用，继续清空流程。";;
          ret true)
         (fun _ =>
            url <- await PageUrl;;
            let is_new_chat_url := contains "/prompts/new_chat" (rstrip_char "/" url) in
            (if is_new_chat_url
             then log INFO "清空聊天按钮不可用 (预期，因为在 new_chat 页面)。跳过清空操作。"
             else log WARNING "等待清空聊天按钮可用失败。清空操作可能无法执行。");;
            ret false);;
     _check_disconnect ("清空聊天 - " ++ quoted "清空聊天" ++ "按钮可用性检查后");;
     when can_attempt_clear
          (_execute_chat_clear clear_chat_button_locator confirm_button_locator overlay_locator;;
           _verify_chat_cleared))
    (fun e_clear =>
       log ERROR "清空聊天过程中发生错误";;
       d <- is_disconnect_like e_clear;;
       when (negb d) (await (SaveErrorSnapshot "clear_chat_error"));;
       raise e_clear).

(** ** The upload strategies *)

Definition css_attr (tag attr value : string) : selector :=
  Css (tag ++ "[" ++ attr ++ "=" ++ quoted value ++ "]").

Definition has_text (tag txt : string) : selector :=
  Css (tag ++ ":has-text(" ++ quoted txt ++ ")").

Definition insert_assets_label : string := "Insert assets such as images, videos, files, or audio".

Definition selectors_to_check : list (string * selector) :=
  [ ("AI Studio插入按钮", css_attr "button" "aria-label" insert_assets_label);
    ("文件输入", css_attr "input" "type" "file");
    ("图片输入", css_attr "input" "accept*" "image");
    ("Upload File菜单项", has_text ("div[role=" ++ quoted "menuitem" ++ "]") "Upload File");
    ("My Drive菜单项", has_text ("div[role=" ++ quoted "menuitem" ++ "]") "My Drive");
    ("Camera菜单项", has_text ("div[role=" ++ quoted "menuitem" ++ "]") "Camera");
    ("Sample Media菜单项", has_text ("div[role=" ++ quoted "menuitem" ++ "]") "Sample Media");
    ("上传按钮", css_attr "button" "aria-label" "Upload File");
    ("附件按钮", css_attr "button" "aria-label" "Attach files") ].

(** The loop of [_diagnose_upload_capability]: the two lists it builds. *)
Fixpoint diagnose_loop (l : list (string * selector)) (found_elements detailed_info : list string)
  : M (list string * list string) :=
  match l with
  | [] => ret (found_elements, detailed_info)
  | (name, sel) :: r =>
      acc <- try_except
               (let locator := Locator sel in
                count <- await (Count locator);;
                if (0 <? count)%nat then
                  let found_elements := (found_elements ++ [name])%list in
                  try_except
                    (let first_element := First locator in
                     is_visible <- await (IsVisible first_element None);;
                     is_enabled <- await (IsEnabled first_element);;
                     try_except (_ <- await (TextContent first_element);; ret tt)
                                (fun _ => ret tt);;
                     ret (found_elements, (detailed_info ++ [name])%list))
                    (fun _ => ret (found_elements, detailed_info))
                else ret (found_elements, detailed_info))
               (fun _ => ret (found_elements, detailed_info));;
      diagnose_loop r (fst acc) (snd acc)
  end.

Definition _diagnose_upload_capability : M unit :=
  log INFO "开始诊断页面上传能力...";;
  acc <- diagnose_loop selectors_to_check [] [];;
  let '(found_elements, detailed_info) := acc in
  match found_elements with
  | _ :: _ =>
      log INFO "找到的上传相关元素:";;
      for_each found_elements (fun element => log INFO element);;
      match detailed_info with
      | _ :: _ =>
          log INFO "元素详细状态:";;
          for_each detailed_info (fun info => log INFO info)
      | [] => ret tt
      end
  | [] => log WARNING "⚠️ 未找到任何上传相关元素，此账号可能不支持文件上传"
  end;;
  try_except
    (current_url <- await PageUrl;;
     page_title <- await PageTitle;;
     log INFO "页面信息 - URL";;
     log INFO "页面信息 - Title")
    (fun _ => ret tt).

Definition function_button_selectors : list selector :=
  [ css_attr "button" "aria-label" insert_assets_label;
    css_attr "button" "aria-label" "Add content";
    css_attr "button" "aria-label" "Insert content";
    css_attr "button" "title" insert_assets_label;
    css_attr "button" "aria-label" "Attach files";
    css_attr "button" "aria-label" "Upload files";
    css_attr "button" "aria-label" "Add files";
    css_attr "button" "title" "Insert assets";
    css_attr "button" "data-testid" "attach-button";
    css_attr "button" "data-testid" "file-upload-button";
    css_attr "button" "aria-label" "Add media";
    css_attr "button" "title" "Attach" ].

Definition _find_and_click_function_button : M bool :=
  clicked <- first_success function_button_selectors (fun sel =>
    try_except
      (let locator := Locator sel in
       count <- await (Count locator);;
       if (0 <? count)%nat then
         let first_btn := First locator in
         is_visible <- await (IsVisible first_btn None);;
         is_enabled <- await (IsEnabled first_btn);;
         log INFO "找到功能按钮";;
         if is_enabled then
           await (Click first_btn None);;
           log INFO "✅ 成功点击功能按钮";;
           await (Sleep 500);;
           ret true
         else log WARNING "功能按钮不可用";; ret false
       else ret false)
      (fun _ => log DEBUG "尝试点击功能按钮失败";; ret false));;
  if clicked then ret true
  else log ERROR "❌ 无法找到任何可用的功能按钮";; ret false.

Definition ai_studio_success_indicators : list string :=
  [ "img[src*=" ++ quoted "blob:" ++ "]";
    "img[src*=" ++ quoted "data:" ++ "]";
    ".uploaded-image";
    ".attachment-preview";
    "[data-testid=" ++ quoted "uploaded-image" ++ "]";
    "[data-testid=" ++ quoted "attachment" ++ "]";
    ".file-name";
    ".uploaded-file";
    "[data-testid=" ++ quoted "uploaded-file" ++ "]";
    ".file-preview";
    ".attachment";
    "ms-prompt-input-wrapper img";
    ".prompt-input img";
    "mat-chip";
    ".file-chip";
    ".attachment-chip" ].

Definition _verify_file_upload_success : M bool :=
  try_except
    (found <- first_success ai_studio_success_indicators (fun indicator =>
       try_except
         (count <- await (Count (Locator (Css indicator)));;
          if (0 <? count)%nat then
            log INFO "发现上传成功指示器";;
            when (contains "img" indicator)
                 (try_except
                    (img_src <- await (GetAttribute (First (Locator (Css indicator))) "src");;
                     when (match img_src with Some s => negb (String.eqb s "") | None => false end)
                          (log INFO "图片源"))
                    (fun _ => ret tt));;
            ret true
          else ret false)
         (fun _ => ret false));;
     if found then ret true
     else
       try_except
         (let input_wrapper := Locator (Css "ms-prompt-input-wrapper") in
          n <- await (Count input_wrapper);;
          when (0 <? n)%nat
               (child_count <- await (Count (Within input_wrapper (Css "*")));;
                log DEBUG "输入区域子元素数量"))
         (fun _ => ret tt);;
       await (Sleep 1000);;
       ret false)
    (fun _ => log DEBUG "验证上传成功时出错";; ret false).

Definition file_input_selectors : list selector :=
  [ css_attr "input" "type" "file";
    css_attr "input" "accept*" "image";
    css_attr "input" "accept*" "file" ].

(** The first loop of [_try_direct_file_input]: every element matching one
    of the selectors. *)
Fixpoint collect_file_inputs (l : list selector) (all_file_inputs : list locator)
  : M (list locator) :=
  match l with
  | [] => ret all_file_inputs
  | sel :: r =>
      acc <- try_except
               (n <- await (All (Locator sel));;
                ret (all_file_inputs ++ map (Nth (Locator sel)) (range n))%list)
               (fun _ => ret all_file_inputs);;
      collect_file_inputs r acc
  end.

Definition _try_direct_file_input (image_list : list string) : M bool :=
  log INFO "尝试直接文件输入方法...";;
  uploaded <- try_except
    (all_file_inputs <- collect_file_inputs file_input_selectors [];;
     match all_file_inputs with
     | [] => log INFO "未找到任何文件输入元素";; ret false
     | _ :: _ =>
         log INFO "找到文件输入元素";;
         first_success all_file_inputs (fun file_input =>
           try_except
             (is_visible <- await (IsVisible file_input None);;
              is_enabled <- await (IsEnabled file_input);;
              try_except (_ <- await (GetAttribute file_input "accept");; ret tt)
                         (fun _ => ret tt);;
              try_except (_ <- await (BoundingBox file_input);; ret tt)
                         (fun _ => ret tt);;
              log INFO "文件输入元素";;
              if is_enabled then
                try_except
                  (await (SetInputFiles file_input image_list);;
                   log INFO "✅ 通过文件输入元素上传成功";;
                   await (Sleep 2000);;
                   ok <- _verify_file_upload_success;;
                   if ok then ret true
                   else log INFO "文件输入元素上传验证失败，继续尝试其他元素";; ret false)
                  (fun _ => log DEBUG "文件输入元素上传失败";; ret false)
              else ret false)
             (fun _ => log DEBUG "检查文件输入元素时出错";; ret false))
     end)
    (fun _ => log WARNING "直接文件输入方法失败";; ret false);;
  ret uploaded.

Definition _try_file_chooser_method1 (button_locator : locator) (image_list : list string) : M bool :=
  try_except
    (log INFO "方法1 - 先监听再点击";;
     await (Click button_locator None);;
     log INFO "已点击按钮，等待文件选择器...";;
     await (ExpectFileChooser 10000);;
     log INFO "✅ 文件选择器已出现 (方法1)";;
     await (FileChooserSetFiles image_list);;
     log INFO "✅ 已设置文件";;
     await (Sleep 1000);;
     ret true)
    (fun _ => log DEBUG "方法1失败";; ret false).

Definition _try_file_chooser_method2 (button_locator : locator) (image_list : list string) : M bool :=
  try_except
    (log INFO "方法2 - 先点击再监听";;
     await (Click button_locator None);;
     log INFO "已点击按钮";;
     await (Sleep 200);;
     await (ExpectFileChooser 5000);;
     log INFO "✅ 文件选择器已出现 (方法2)";;
     await (FileChooserSetFiles image_list);;
     log INFO "✅ 已设置文件";;
     await (Sleep 1000);;
     ret true)
    (fun _ => log DEBUG "方法2失败";; ret false).

Definition menuitem (tag : string) : string := tag ++ "[role=" ++ quoted "menuitem" ++ "]".

Definition upload_button_selectors : list selector :=
  [ has_text (menuitem "div") "Upload File";
    has_text (menuitem "button") "Upload File";
    has_text "mat-menu-item" "Upload File";
    Css ("[aria-label*=" ++ quoted "Upload File" ++ "]");
    UPLOAD_BUTTON_SELECTOR;
    css_attr "button" "aria-label" "Upload from computer";
    css_attr "button" "aria-label" "Upload files";
    css_attr "button" "aria-label" "Choose files";
    css_attr "button" "aria-label" "Browse files";
    has_text (menuitem "div") "Upload";
    has_text (menuitem "button") "Upload";
    has_text "mat-menu-item" "Upload";
    css_attr "button" "aria-label" "Upload";
    css_attr "button" "title" "Upload File";
    has_text "button" "Upload File";
    has_text "button" "Upload";
    Css ("[data-testid=" ++ quoted "upload-button" ++ "]");
    has_text "button" "Choose file";
    has_text "button" "Browse";
    has_text "button" "Select files" ].

Definition _try_standard_file_chooser (image_list : list string) : M bool :=
  log INFO "尝试标准文件选择器方法...";;
  first_success upload_button_selectors (fun sel =>
    try_except
      (let upload_btn_locator := Locator sel in
       count <- await (Count upload_btn_locator);;
       if (count =? 0)%nat then log DEBUG "选择器未找到元素";; ret false
       else
         log INFO "找到上传按钮";;
         let first_btn := First upload_btn_locator in
         is_visible <- await (IsVisible first_btn None);;
         is_enabled <- await (IsEnabled first_btn);;
         log INFO "按钮状态";;
         if negb is_enabled then log WARNING "按钮不可用，跳过";; ret false
         else
           success <- _try_file_chooser_method1 first_btn image_list;;
           if success then ret true
           else _try_file_chooser_method2 first_btn image_list)
      (fun _ => log WARNING "使用选择器失败";; ret false)).

Definition drop_zones : list selector :=
  [ Css ("[data-testid=" ++ quoted "drop-zone" ++ "]");
    Css ".drop-zone";
    Css ".upload-area";
    Css "textarea" ].

Definition _try_drag_drop_upload (image_list : list string) : M bool :=
  log INFO "尝试拖拽上传方法...";;
  try_except
    (first_success drop_zones (fun zone_selector =>
       try_except
         (let zone_locator := Locator zone_selector in
          count <- await (Count zone_locator);;
          if (0 <? count)%nat then
            log INFO "尝试拖拽到";;
            await (DispatchEvent (First zone_locator) "dragover" None);;
            await (DispatchEvent (First zone_locator) "drop" (Some image_list));;
            await (Sleep 2000);;
            log INFO "✅ 拖拽上传尝试完成";;
            ret true
          else ret false)
         (fun _ => log DEBUG "拖拽失败";; ret false)))
    (fun _ => log WARNING "拖拽上传方法失败";; ret false).

Definition _try_multiple_upload_methods (image_list : list string) : M bool :=
  log INFO "尝试多种上传方法...";;
  log INFO "=== 尝试方法1: 直接文件输入 ===";;
  direct <- _try_direct_file_input image_list;;
  if direct then ret true
  else
    log INFO "=== 尝试方法2: 标准文件选择器 ===";;
    chooser <- _try_standard_file_chooser image_list;;
    if chooser then ret true
    else
      log INFO "=== 尝试方法3: 拖拽上传 ===";;
      dropped <- _try_drag_drop_upload image_list;;
      if dropped then ret true
      else log ERROR "❌ 所有上传方法都失败了";; ret false.

Definition acknow_selectors : list selector :=
  [ css_attr "button" "aria-label" "Agree to the copyright acknowledgement";
    has_text "button" "Agree";
    has_text "button" "I agree";
    has_text "button" "Accept";
    Css ("[data-testid=" ++ quoted "copyright-agree" ++ "]") ].

Definition _handle_copyright_acknowledgement : M unit :=
  try_except
    (agreed <- first_success acknow_selectors (fun sel =>
       try_except
         (let acknow_btn_locator := Locator sel in
          count <- await (Count acknow_btn_locator);;
          if (0 <? count)%nat then
            log INFO "找到版权确认按钮";;
            await (Click (First acknow_btn_locator) None);;
            log INFO "✅ 版权确认完成";;
            ret true
          else ret false)
         (fun _ => log DEBUG "版权确认按钮点击失败";; ret false));;
     when (negb agreed) (log INFO "未找到版权确认按钮，可能不需要确认"))
    (fun _ => log WARNING "处理版权确认时出错").

Definition _upload_files_with_diagnostics (image_list : list string) : M unit :=
  log INFO "开始文件上传诊断";;
  try_except
    (_diagnose_upload_capability;;
     function_btn_found <- _find_and_click_function_button;;
     if negb function_btn_found then
       log ERROR "❌ 无法找到功能按钮，可能此账号不支持文件上传"
     else
       upload_success <- _try_multiple_upload_methods image_list;;
       if upload_success then
         log INFO "✅ 文件上传成功";;
         _handle_copyright_acknowledgement
       else log ERROR "❌ 所有上传方法都失败")
    (fun _ => log ERROR "❌ 文件上传过程中发生错误").

(** ** _try_shortcut_submit *)

(** The platform decision: is the modifier key the Mac one? *)
Definition is_mac_determined : M bool :=
  host_os_from_launcher <- await (GetEnv "HOST_OS_FOR_SHORTCUT");;
  let host_is (name : string) :=
    match host_os_from_launcher with Some h => String.eqb h name | None => false end in
  if host_is "Darwin" then ret true
  else if host_is "Windows" || host_is "Linux" then ret false
  else
    user_agent_data_platform <-
      try_except
        (await (PageEvaluate JsUserAgentDataPlatform))
        (fun _ =>
           user_agent_string <- await (PageEvaluate JsUserAgent);;
           let user_agent_string_lower := lower user_agent_string in
           if contains "macintosh" user_agent_string_lower
              || contains "mac os x" user_agent_string_lower
           then ret "macOS" else ret "Other");;
    ret (contains "mac" (lower user_agent_data_platform)).

(** The body of the verification [try] block: three ways to see that the
    shortcut submitted the prompt. *)
Definition shortcut_verification (prompt_textarea_locator : locator) (original_content : string)
  : M bool :=
  current_content <- await (InputValue prompt_textarea_locator 2000);;
  submission_success <-
    (if negb (String.eqb original_content "") && String.eqb (strip current_content) ""
     then log INFO "验证方法1: 输入框已清空，快捷键提交成功";; ret true
     else ret false);;
  submission_success <-
    (if negb submission_success then
       let submit_button_locator := Locator SUBMIT_BUTTON_SELECTOR in
       try_except
         (is_disabled <- await (IsDisabled submit_button_locator 2000);;
          if is_disabled
          then log INFO "验证方法2: 提交按钮已禁用，快捷键提交成功";; ret true
          else ret submission_success)
         (fun _ => ret submission_success)
     else ret submission_success);;
  (if negb submission_success then
     try_except
       (let response_container := Locator RESPONSE_CONTAINER_SELECTOR in
        container_count <- await (Count response_container);;
        if (0 <? container_count)%nat then
          let last_container := Last response_container in
          visible <- await (IsVisible last_container (Some 1000));;
          if visible
          then log INFO "验证方法3: 检测到响应容器，快捷键提交成功";; ret true
          else ret submission_success
        else ret submission_success)
       (fun _ => ret submission_success)
   else ret submission_success).

(** The verification block with its handler: an exception that escapes the
    three checks counts as a successful submission. *)
Definition verify_shortcut_submission (prompt_textarea_locator : locator)
    (original_content : string) : M bool :=
  try_except
    (shortcut_verification prompt_textarea_locator original_content)
    (fun _ => log WARNING "快捷键提交验证过程出错";; ret true).

(** Everything inside the outer [try] up to the verification block; returns
    the content of the prompt field before the key press. *)
Definition press_shortcut (prompt_textarea_locator : locator) : M string :=
  is_mac <- is_mac_determined;;
  let shortcut_modifier := if is_mac then "Meta" else "Control" in
  let shortcut_key := "Enter" in
  log INFO "使用快捷键";;
  await (Focus prompt_textarea_locator 5000);;
  _check_disconnect "After Input Focus";;
  await (Sleep 100);;
  original_content <- try_except (await (InputValue prompt_textarea_locator 2000))
                                 (fun _ => ret "");;
  try_except
    (await (KeyboardPress (shortcut_modifier ++ "+" ++ shortcut_key)))
    (fun _ =>
       await (KeyboardDown shortcut_modifier);;
       await (Sleep 50);;
       await (KeyboardPress shortcut_key);;
       await (Sleep 50);;
       await (KeyboardUp shortcut_modifier));;
  _check_disconnect "After Shortcut Press";;
  await (Sleep 2000);;
  ret original_content.

Definition _try_shortcut_submit (prompt_textarea_locator : locator) : M bool :=
  try_except
    (original_content <- press_shortcut prompt_textarea_locator;;
     submission_success <- verify_shortcut_submission prompt_textarea_locator original_content;;
     if submission_success then log INFO "✅ 快捷键提交成功";; ret true
     else log WARNING "⚠️ 快捷键提交验证失败";; ret false)
    (fun _ => log WARNING "快捷键提交失败";; ret false).

(** ** submit_prompt *)

(** The fallback of [submit_prompt]: a direct click on the submit control. *)
Definition click_submit_button (submit_button_locator : locator) : M unit :=
  log INFO "快捷键提交失败，尝试点击提交按钮...";;
  try_except
    (await (Click submit_button_locator (Some 5000));;
     log INFO "✅ 提交按钮点击完成。")
    (fun click_err =>
       log ERROR "❌ 提交按钮点击失败";;
       await (SaveErrorSnapshot "submit_button_click_fail");;
       raise click_err).

(** The two ways [submit_prompt] triggers the submission: the shortcut, and
    the click when the shortcut did not verify. *)
Definition submit_by_shortcut_or_click (prompt_textarea_locator submit_button_locator : locator)
  : M unit :=
  submitted_successfully <- _try_shortcut_submit prompt_textarea_locator;;
  when (negb submitted_successfully) (click_submit_button submit_button_locator).

(** What [submit_prompt] does once the prompt is filled in and the files, if
    any, have been handed to the upload routine. *)
Definition submit_after_upload (prompt_textarea_locator submit_button_locator : locator) : M unit :=
  let wait_timeout_ms_submit_enabled := 100000 in
  try_except
    (_check_disconnect "填充提示后等待发送按钮启用 - 前置检查";;
     await (ToBeEnabled submit_button_locator wait_timeout_ms_submit_enabled);;
     log INFO "✅ 发送按钮已启用。")
    (fun e_pw_enabled =>
       log ERROR "❌ 等待发送按钮启用超时或错误";;
       await (SaveErrorSnapshot "submit_button_enable_timeout");;
       raise e_pw_enabled);;
  _check_disconnect "After Submit Button Enabled";;
  await (Sleep 300);;
  submit_by_shortcut_or_click prompt_textarea_locator submit_button_locator;;
  _check_disconnect "After Submit".

(** The first steps of [submit_prompt]: wait for the prompt field and
    inject the text. *)
Definition fill_prompt (prompt : string) (prompt_textarea_locator autosize_wrapper_locator : locator)
  : M unit :=
  await (ToBeVisible prompt_textarea_locator 5000);;
  _check_disconnect "After Input Visible";;
  await (Evaluate prompt_textarea_locator JsSetValueAndNotify prompt);;
  await (Evaluate autosize_wrapper_locator JsSetDataValue prompt);;
  _check_disconnect "After Input Fill".

Definition submit_prompt (prompt : string) (image_list : list string) : M unit :=
  log INFO "填充并提交提示...";;
  let prompt_textarea_locator := Locator PROMPT_TEXTAREA_SELECTOR in
  let autosize_wrapper_locator := Locator (Css "ms-prompt-input-wrapper ms-autosize-textarea") in
  let submit_button_locator := Locator SUBMIT_BUTTON_SELECTOR in
  try_except
    (fill_prompt prompt prompt_textarea_locator autosize_wrapper_locator;;
     when (0 <? length image_list)%nat (_upload_files_with_diagnostics image_list);;
     submit_after_upload prompt_textarea_locator submit_button_locator)
    (fun e_input_submit =>
       log ERROR "输入和提交过程中发生错误";;
       when (negb (is_disconnect e_input_submit)) (await (SaveErrorSnapshot "input_submit_error"));;
       raise e_input_submit).

(** ** get_response *)
Definition get_response : M string :=
  log INFO "等待并获取响应...";;
  try_except
    (let response_container_locator := Last (Locator RESPONSE_CONTAINER_SELECTOR) in
     let response_element_locator := Within response_container_locator RESPONSE_TEXT_SELECTOR in
     log INFO "等待响应元素附加到DOM...";;
     await (ToBeAttached response_element_locator 90000);;
     _check_disconnect "获取响应 - 响应元素已附加";;
     log INFO "等待响应完成...";;
     completion_detected <- await WaitForResponseCompletion;;
     (if negb completion_detected
      then log WARNING "响应完成检测失败，尝试获取当前内容"
      else log INFO "✅ 响应完成检测成功");;
     final_content <- await GetFinalResponseContent;;
     match final_content with
     | Some c =>
         if String.eqb (strip c) "" then
           log WARNING "⚠️ 获取到的响应内容为空";;
           await (SaveErrorSnapshot "empty_response");;
           ret ""
         else log INFO "✅ 成功获取响应内容";; ret c
     | None =>
         log WARNING "⚠️ 获取到的响应内容为空";;
         await (SaveErrorSnapshot "empty_response");;
         ret ""
     end)
    (fun e =>
       log ERROR "❌ 获取响应时出错";;
       when (negb (is_disconnect e)) (await (SaveErrorSnapshot "get_response_error"));;
       raise e).

End Controller.

(* ===================================================================== *)
(** * 5. A simulated page, to run the methods on concrete sessions *)
(* ===================================================================== *)

Module Sim.

(** What never changes during a run: how the page behaves. [fails] and
    [disconnected_at] see the number of operations answered so far. *)
Record behaviour := {
  shows : text -> string;               (* what a field displays once filled *)
  fails : nat -> op -> option exn;      (* the operations that raise *)
  disconnected_at : nat -> string -> bool;  (* the caller's predicate *)
  dialog_closes : bool;                 (* does confirming close the dialog? *)
  shortcut_works : bool;                (* does the key chord submit? *)
  counts : locator -> nat;              (* elements matched, chips apart *)
  url : string
}.

Record sim := {
  script : behaviour;
  clock : nat;
  texts : gmap string string;           (* the content of the inputs *)
  chips : list string;                  (* the stop sequences shown *)
  dialog_open : bool;
  generating : bool;
  search_checked : bool
}.

Definition tick (p : sim) : sim :=
  {| script := script p; clock := S (clock p); texts := texts p; chips := chips p;
     dialog_open := dialog_open p; generating := generating p;
     search_checked := search_checked p |}.

Definition with_text (k v : string) (p : sim) : sim :=
  {| script := script p; clock := clock p; texts := <[k := v]> (texts p); chips := chips p;
     dialog_open := dialog_open p; generating := generating p;
     search_checked := search_checked p |}.

Definition with_chips (c : list string) (p : sim) : sim :=
  {| script := script p; clock := clock p; texts := texts p; chips := c;
     dialog_open := dialog_open p; generating := generating p;
     search_checked := search_checked p |}.

Definition with_dialog (b : bool) (p : sim) : sim :=
  {| script := script p; clock := clock p; texts := texts p; chips := chips p;
     dialog_open := b; generating := generating p; search_checked := search_checked p |}.

Definition with_generating (b : bool) (p : sim) : sim :=
  {| script := script p; clock := clock p; texts := texts p; chips := chips p;
     dialog_open := dialog_open p; generating := b; search_checked := search_checked p |}.

Definition with_search (b : bool) (p : sim) : sim :=
  {| script := script p; clock := clock p; texts := texts p; chips := chips p;
     dialog_open := dialog_open p; generating := generating p; search_checked := b |}.

(** The input a locator denotes, by the key of [texts]. *)
Definition field_key (l : locator) : option string :=
  match l with
  | Locator TEMPERATURE_INPUT_SELECTOR => Some "temperature"
  | Locator MAX_OUTPUT_TOKENS_SELECTOR => Some "max_output_tokens"
  | Locator TOP_P_INPUT_SELECTOR => Some "top_p"
  | Locator THINKING_BUDGET_INPUT_SELECTOR => Some "thinking_budget"
  | Locator STOP_SEQUENCE_INPUT_SELECTOR => Some "stop_input"
  | Locator PROMPT_TEXTAREA_SELECTOR => Some "prompt"
  | _ => None
  end.

Definition text_of (l : locator) (p : sim) : string :=
  match field_key l with
  | Some k => default "" (texts p !! k)
  | None => ""
  end.

Definition fill_field (l : locator) (v : string) (p : sim) : sim :=
  match field_key l with
  | Some k => with_text k v p
  | None => p
  end.

Definition is_dialog (l : locator) : bool :=
  match l with
  | Locator OVERLAY_SELECTOR | Locator CLEAR_CHAT_CONFIRM_BUTTON_SELECTOR => true
  | _ => false
  end.

Definition timeout_error : exn := TimeoutError (Some "TimeoutError").

Definition click (l : locator) (p : sim) : sim :=
  match l with
  | First (Locator MAT_CHIP_REMOVE_BUTTON_SELECTOR) => with_chips (tail (chips p)) p
  | Locator CLEAR_CHAT_BUTTON_SELECTOR => with_dialog true p
  | Locator CLEAR_CHAT_CONFIRM_BUTTON_SELECTOR =>
      if dialog_closes (script p) then with_dialog false p else p
  | Locator SUBMIT_BUTTON_SELECTOR => with_generating true (with_text "prompt" "" p)
  | Locator GROUNDING_WITH_GOOGLE_SEARCH_TOGGLE_SELECTOR =>
      with_search (negb (search_checked p)) p
  | _ => p
  end.

Definition press (l : locator) (key : string) (p : sim) : sim :=
  match l with
  | Locator STOP_SEQUENCE_INPUT_SELECTOR =>
      if String.eqb key "Enter"
      then with_text "stop_input" "" (with_chips (chips p ++ [text_of l p]) p)
      else p
  | _ => p
  end.

Definition count (l : locator) (p : sim) : nat :=
  match l with
  | Locator MAT_CHIP_REMOVE_BUTTON_SELECTOR => length (chips p)
  | _ => counts (script p) l
  end.

Definition attribute (l : locator) (name : string) (p : sim) : option string :=
  match l with
  | Locator GROUNDING_WITH_GOOGLE_SEARCH_TOGGLE_SELECTOR =>
      if String.eqb name "aria-checked"
      then Some (if search_checked p then "true" else "false")
      else None
  | _ => None
  end.

Definition ok {A} (a : A) (p : sim) : result A * sim := (Ok a, p).

Definition expect (b : bool) (p : sim) : result unit * sim :=
  if b then (Ok tt, p) else (Raise timeout_error, p).

(** The answer of the page when the operation does not raise. *)
Definition answer (o : op) (p : sim) : result (ret_type o) * sim :=
  match o return result (ret_type o) * sim with
  | ToBeVisible l _ => expect (negb (is_dialog l) || dialog_open p) p
  | ToBeEnabled _ _ => ok tt p
  | ToBeHidden l _ => expect (negb (is_dialog l && dialog_open p)) p
  | ToBeAttached _ _ => ok tt p
  | InputValue l _ => ok (text_of l p) p
  | GetAttribute l name => ok (attribute l name p) p
  | Count l => ok (count l p) p
  | All l => ok (count l p) p
  | IsVisible l _ => ok (if is_dialog l then dialog_open p else true) p
  | IsEnabled _ => ok true p
  | IsDisabled _ _ => ok (generating p) p
  | TextContent _ => ok None p
  | BoundingBox _ => ok None p
  | PageUrl => ok (url (script p)) p
  | PageTitle => ok "" p
  | PageEvaluate _ => ok "" p
  | Fill l v _ => ok tt (fill_field l (match v with Lit s => s | _ => shows (script p) v end) p)
  | Click l _ => ok tt (click l p)
  | Press l key _ => ok tt (press l key p)
  | Focus _ _ => ok tt p
  | Evaluate l js arg =>
      ok tt (match js with JsSetValueAndNotify => fill_field l arg p | _ => p end)
  | KeyboardPress key =>
      ok tt (if shortcut_works (script p) && String.eqb key "Control+Enter"
             then with_generating true (with_text "prompt" "" p) else p)
  | KeyboardDown _ => ok tt p
  | KeyboardUp _ => ok tt p
  | SetInputFiles _ _ => ok tt p
  | DispatchEvent _ _ _ => ok tt p
  | ExpectFileChooser _ => ok tt p
  | FileChooserSetFiles _ => ok tt p
  | Sleep _ => ok tt p
  | CheckClientDisconnected stage => ok (disconnected_at (script p) (clock p) stage) p
  | SaveErrorSnapshot _ => ok tt p
  | GetEnv _ => ok None p
  | WaitForResponseCompletion => ok true p
  | GetFinalResponseContent => ok None p
  end.

Definition sim_handle (o : op) (p : sim) : result (ret_type o) * sim :=
  match fails (script p) (clock p) o with
  | Some e => (Raise e, tick p)
  | None => let '(r, p') := answer o p in (r, tick p')
  end.

#[export] Instance browser : Browser := {| page := sim; handle := sim_handle |}.

(** A page that answers every operation: nothing raises, the caller stays
    connected, the dialog closes, the key chord submits; a field filled
    with a number displays nothing. *)
Definition plain : behaviour :=
  {| shows := fun _ => ""; fails := fun _ _ => None; disconnected_at := fun _ _ => false;
     dialog_closes := true; shortcut_works := true; counts := fun _ => O;
     url := "https://aistudio.google.com/prompts/new_chat" |}.

Definition start (b : behaviour) (fields : gmap string string) (cs : list string) : sim :=
  {| script := b; clock := O; texts := fields; chips := cs; dialog_open := false;
     generating := false; search_checked := false |}.

(** A configuration; [ENABLE_GOOGLE_SEARCH] is a parameter of it. *)
Definition config (search_default url_context : bool) : Config :=
  {| CLICK_TIMEOUT_MS := 3000;
     WAIT_FOR_ELEMENT_TIMEOUT_MS := 10000;
     CLEAR_CHAT_VERIFY_TIMEOUT_MS := 4000;
     DEFAULT_TEMPERATURE := PFloat 1;
     DEFAULT_MAX_OUTPUT_TOKENS := PInt 65536;
     DEFAULT_STOP_SEQUENCES := PList [PStr "用户:"];
     DEFAULT_TOP_P := PFloat (95 # 100);
     ENABLE_URL_CONTEXT := url_context;
     ENABLE_THINKING_BUDGET := false;
     DEFAULT_THINKING_BUDGET := 8192;
     ENABLE_GOOGLE_SEARCH := search_default |}.

(** Runs a method on a simulated page with a given cache. *)
Definition run {A} (m : M A) (p : sim) (cache : gmap string cval) :
  result A * state * list event := m (State p cache).

End Sim.

(** ** Pages that misbehave *)

Module Scripts.
Import Sim.

Definition with_fails (f : nat -> op -> option exn) (b : behaviour) : behaviour :=
  {| shows := shows b; fails := f; disconnected_at := disconnected_at b;
     dialog_closes := dialog_closes b; shortcut_works := shortcut_works b;
     counts := counts b; url := url b |}.

(** Every field filled with a number displays [txt]. *)
Definition displays (txt : string) : behaviour :=
  {| shows := fun _ => txt; fails := fails plain; disconnected_at := disconnected_at plain;
     dialog_closes := dialog_closes plain; shortcut_works := shortcut_works plain;
     counts := counts plain; url := url plain |}.



(** The prompt field cannot be focused. *)
Definition focus_fails : behaviour :=
  with_fails (fun _ o => match o with
                         | Focus _ _ => Some timeout_error
                         | _ => None
                         end) plain.

(** The prompt field cannot be read once [k] operations have been answered. *)
Definition prompt_unreadable_from (k : nat) : behaviour :=
  with_fails (fun n o => match o with
                         | InputValue (Locator PROMPT_TEXTAREA_SELECTOR) _ =>
                             if (k <=? n)%nat then Some timeout_error else None
                         | _ => None
                         end) plain.

(** The caller goes away once [k] operations have been answered, and stays
    away. *)
Definition hangs_up_at (k : nat) : behaviour :=
  {| shows := shows plain; fails := fails plain;
     disconnected_at := fun n _ => (k <=? n)%nat;
     dialog_closes := dialog_closes plain; shortcut_works := shortcut_works plain;
     counts := counts plain; url := url plain |}.

(** Confirming does not close the dialog. *)
Definition dialog_stays : behaviour :=
  {| shows := shows plain; fails := fails plain; disconnected_at := disconnected_at plain;
     dialog_closes := false; shortcut_works := shortcut_works plain;
     counts := counts plain; url := url plain |}.

(** The key chord does nothing. *)
Definition shortcut_ignored : behaviour :=
  {| shows := shows plain; fails := fails plain; disconnected_at := disconnected_at plain;
     dialog_closes := dialog_closes plain; shortcut_works := false;
     counts := counts plain; url := url plain |}.

End Scripts.

(* ===================================================================== *)
(** * 6. Notions used to state the properties *)
(* ===================================================================== *)

(** The last page operation of a trace, with its outcome. *)
Definition is_ui_event (e : event) : bool :=
  match e with
  | EvOp o _ => is_ui o
  | _ => false
  end.

Definition last_ui (t : list event) : option event := last (filter (fun e => is_ui_event e = true) t).



(** The strings typed into the stop-sequence input, in order. *)
Definition typed_stops (t : list event) : list string :=
  omap (fun o => match o with
                 | Fill (Locator STOP_SEQUENCE_INPUT_SELECTOR) (Lit s) _ => Some s
                 | _ => None
                 end) (ops_of t).

(** The values filled into the input [sel], in order. *)
Definition filled (is_sel : selector -> bool) (t : list event) : list text :=
  omap (fun o => match o with
                 | Fill (Locator s) v _ => if is_sel s then Some v else None
                 | _ => None
                 end) (ops_of t).


(** [clamp lo hi x], as the class writes it: [max(lo, min(hi, x))]. *)
Definition clamp (lo hi x : pynum) : pynum := max2 lo (min2 hi x).

(** The ceiling [max_val_for_tokens_from_model] computes, without its log
    records. *)
Definition token_ceiling (model_id_to_use : string)
    (parsed_model_list : list (list (string * pyval))) : Z :=
  if String.eqb model_id_to_use "" then 65536
  else match find_model parsed_model_list model_id_to_use with
       | Some m =>
           match dict_get m "supported_max_output_tokens" with
           | Some v =>
               match int_of v with
               | inr z => if 0 <? z then z else 65536
               | inl _ => 65536
               end
           | None => 65536
           end
       | None => 65536
       end.

(** A tool entry that is a recognized Google-search directive: a dict with
    a non-null ['google_search_retrieval'], or whose ['function'] is a dict
    named ['googleSearch']. *)
Definition search_directive (tool : pyval) : Prop :=
  exists d, tool = PDict d /\
    (is_not_none (dict_get d "google_search_retrieval") = true
     \/ exists f, dict_get d "function" = Some (PDict f)
                  /\ dict_get f "name" = Some (PStr "googleSearch")).

(** A tool entry on which the scan cannot fail: not a dict, or a dict whose
    ['function'], when present, is a dict. *)
Definition well_formed_tool (tool : pyval) : Prop :=
  match tool with
  | PDict d => match dict_get d "function" with
               | None | Some (PDict _) => True
               | Some _ => False
               end
  | _ => True
  end.

(** A reasoning effort that resolves to no budget. *)
Definition unresolvable (reasoning_effort : pyval) : Prop :=
  match reasoning_effort with
  | PFloat _ | PList _ | PDict _ => True
  | PStr s => lower s <> "none" /\ effort_map (lower s) = None /\ int_of_str s = None
  | PNone | PInt _ | PBool _ => False
  end.

(** ** How the adjustment of a cached field ends *)

Section Outcomes.
Context `{Browser}.


(** The last thing done was to write [v] under [key]. *)
Definition committed (key : string) (v : cval) (s : state)
    (r : result unit * state * list event) : Prop :=
  s_cache (state_of r) = <[key := v]> (s_cache s)
  /\ last (trace_of r) = Some (EvCacheSet key v).



End Outcomes.


Definition out_of_range_temperature : string := "请求的温度超出范围 [0, 2]，已调整".


(** ** Log records *)

(** A warning of the catalog lookup of [_adjust_max_tokens]. *)
Definition is_warning (e : event) : Prop :=
  e = EvLog WARNING "模型 supported_max_output_tokens 无效"
  \/ e = EvLog WARNING "模型 supported_max_output_tokens 解析失败".

Definition is_log (e : event) : Prop := exists lv m, e = EvLog lv m.

Section Posts.
Context `{Browser} `{Config}.





(** What the [try] statement of a field without a cache entry guarantees:
    the page is always asked, the cache is left alone. *)
Definition uncached_sync_post (l : locator) (is_sel : selector -> bool) (value : pynum)
    (warn : string) (s : state) (res : result unit) (s' : state) (tr : list event) : Prop :=
  Forall (eq (StrOf value)) (filled is_sel tr)
  /\ s_cache s' = s_cache s
  /\ (exists rest, ui_ops tr = ToBeVisible l 5000 :: rest)
  /\ (forall m, In m (logged WARNING tr) -> m = warn).

Definition is_budget_input (s : selector) : bool :=
  match s with THINKING_BUDGET_INPUT_SELECTOR => true | _ => false end.






(** The rhythm of the loop that waits for the dialog to go away: a poll of
    the confirm control, or the one-second pause before the next attempt. *)
Inductive beat := Poll | Backoff.

Definition beat_of (o : op) : option beat :=
  match o with
  | ToBeHidden (Locator CLEAR_CHAT_CONFIRM_BUTTON_SELECTOR) _ => Some Poll
  | Sleep 1000 => Some Backoff
  | _ => None
  end.

Definition schedule (tr : list event) : list beat := omap beat_of (ops_of tr).

(** [plan n]: [n] polls with a pause between consecutive ones. *)
Fixpoint plan (n : nat) : list beat :=
  match n with
  | O => []
  | S O => [Poll]
  | S n' => Poll :: Backoff :: plan n'
  end.

(** A wait for the dialog to hide that ran into its timeout. *)
Definition timed_out (e : event) : bool :=
  match e with
  | EvOp (ToBeHidden _ _) (Raise x) => is_timeout x
  | _ => false
  end.

Fixpoint timeouts (tr : list event) : nat :=
  match tr with
  | [] => O
  | e :: r => ((if timed_out e then 1 else 0) + timeouts r)%nat
  end.

(** Did a wait for [sel] to hide succeed? *)
Definition saw_hidden (is_sel : selector -> bool) (tr : list event) : bool :=
  existsb (fun e => match e with
                    | EvOp (ToBeHidden (Locator s) _) (Ok _) => is_sel s
                    | _ => false
                    end) tr.

Definition is_confirm (s : selector) : bool :=
  match s with CLEAR_CHAT_CONFIRM_BUTTON_SELECTOR => true | _ => false end.
Definition is_overlay (s : selector) : bool :=
  match s with OVERLAY_SELECTOR => true | _ => false end.

Definition dialog_timeout_tag : string := "clear_chat_dialog_disappear_timeout".

(** What the waiting loop guarantees when [n] attempts are left. *)
Definition wait_post (n : nat) (res : result unit) (s' : state) (tr : list event) : Prop :=
  schedule tr `prefix_of` plan n
  /\ (timeouts tr <= n)%nat
  /\ (timeouts tr = n ->
      (exists e, res = Raise e)
      /\ In (SaveErrorSnapshot dialog_timeout_tag) (ops_of tr))
  /\ (res = Ok tt -> saw_hidden is_confirm tr = true /\ saw_hidden is_overlay tr = true).

(** [wp m s Q]: running [m] from [s] ends in a result, a state and a trace
    that satisfy [Q]. *)
Definition wp {A} (m : M A) (s : state) (Q : result A -> state -> list event -> Prop) : Prop :=
  Q (res_of (m s)) (state_of (m s)) (trace_of (m s)).

End Posts.

(** Is this event a poll of the confirm control? *)
Definition is_poll (e : event) : bool :=
  match e with
  | EvOp o _ => match beat_of o with Some Poll => true | _ => false end
  | _ => false
  end.

(** Is this event a click on the confirm control that went through? *)
Definition is_confirm_click (e : event) : bool :=
  match e with
  | EvOp (Click (Locator CLEAR_CHAT_CONFIRM_BUTTON_SELECTOR) _) (Ok _) => true
  | _ => false
  end.

(** Every poll of the trace comes after a click on the confirm control;
    [clicked] tells whether one has been seen already. *)
Fixpoint polls_follow_confirm (clicked : bool) (tr : list event) : bool :=
  match tr with
  | [] => true
  | e :: r =>
      if is_poll e then clicked && polls_follow_confirm clicked r
      else polls_follow_confirm (clicked || is_confirm_click e) r
  end.

Section ResetPost.
Context `{Browser}.

(** What [_execute_chat_clear] guarantees. *)
Definition reset_post (res : result unit) (s' : state) (tr : list event) : Prop :=
  wait_post 3 res s' tr /\ polls_follow_confirm false tr = true.

End ResetPost.

(** A click, on anything. *)
Definition is_click (o : op) : bool :=
  match o with Click _ _ => true | _ => false end.

Definition clicked (tr : list event) : bool := existsb is_click (ops_of tr).

(** ** What may leave [adjust_parameters] *)

(** The collaborators that are not the page: the caller's predicate and the
    snapshot helper. *)
Definition outside_page (o : op) : bool :=
  match o with
  | CheckClientDisconnected _ | SaveErrorSnapshot _ => true
  | _ => false
  end.

(** The errors that are let through: a disconnection, the [TypeError] of a
    value used as a number, the [AttributeError] of the scan of the tools,
    and whatever the predicate or the snapshot helper raised themselves. *)
Definition may_escape (e : exn) (tr : list event) : Prop :=
  is_disconnect e = true \/ e = TypeError \/ e = AttributeError
  \/ exists o, outside_page o = true /\ In (EvOp o (Raise e)) tr.

Section Escapes.
Context `{Browser}.


End Escapes.

(** ** Order of events *)

(** Every event that satisfies [trigger] comes after one that satisfies
    [cause]; [seen] tells whether a cause has been met already. *)
Fixpoint preceded_by (cause trigger : event -> bool) (seen : bool) (tr : list event) : bool :=
  match tr with
  | [] => true
  | e :: r => (negb (trigger e) || seen) && preceded_by cause trigger (seen || cause e) r
  end.

(** The clicks of a trace, in order. *)
Definition clicks (tr : list event) : list op := List.filter is_click (ops_of tr).

Definition is_click_event (e : event) : bool :=
  match e with
  | EvOp o _ => is_click o
  | _ => false
  end.

(** A successful read of the ['aria-checked'] attribute of the toggle [sel]
    that shows it checked ([v] true) or not. *)
Definition reads_checked (is_sel : selector -> bool) (v : bool) (e : event) : bool :=
  match e with
  | EvOp o r =>
      match o return result (ret_type o) -> bool with
      | GetAttribute (Locator sel) name => fun r =>
          match r with
          | Ok a => is_sel sel && String.eqb name "aria-checked" && Bool.eqb (is_true_attr a) v
          | Raise _ => false
          end
      | _ => fun _ => false
      end r
  | _ => false
  end.

Definition is_thinking_toggle (s : selector) : bool :=
  match s with SET_THINKING_BUDGET_TOGGLE_SELECTOR => true | _ => false end.
Definition is_search_toggle (s : selector) : bool :=
  match s with GROUNDING_WITH_GOOGLE_SEARCH_TOGGLE_SELECTOR => true | _ => false end.
Definition is_url_context_toggle (s : selector) : bool :=
  match s with USE_URL_CONTEXT_SELECTOR => true | _ => false end.

(** A successful read of the ['aria-checked'] attribute of the URL-context
    toggle that gives ["false"]. *)
Definition reads_url_context_off (e : event) : bool :=
  match e with
  | EvOp o r =>
      match o return result (ret_type o) -> bool with
      | GetAttribute (Locator USE_URL_CONTEXT_SELECTOR) name => fun r =>
          match r with
          | Ok (Some a) => String.eqb name "aria-checked" && String.eqb a "false"
          | _ => false
          end
      | _ => fun _ => false
      end r
  | _ => false
  end.

(** A click on the element [sel]. *)
Definition clicks_on (is_sel : selector -> bool) (e : event) : bool :=
  match e with
  | EvOp (Click (Locator sel) _) _ => is_sel sel
  | _ => false
  end.

Section TogglePost.
Context `{Browser}.

(** What driving a toggle toward [desired] guarantees: at most one click,
    on the toggle, after a read that showed the other state; the cache is
    left alone; only a disconnection is let through. *)
Definition toggle_post (is_sel : selector -> bool) (desired : bool) (s : state)
    (res : result unit) (s' : state) (tr : list event) : Prop :=
  (length (clicks tr) <= 1)%nat
  /\ Forall (fun e => is_click_event e = true -> clicks_on is_sel e = true) tr
  /\ preceded_by (reads_checked is_sel (negb desired)) is_click_event false tr = true
  /\ s_cache s' = s_cache s
  /\ (forall e, res = Raise e -> is_disconnect e = true).

End TogglePost.

(** The overlay of the confirmation dialog was seen: [is_visible] answered
    true, or the wait for it to be visible succeeded. *)
Definition sees_overlay (e : event) : bool :=
  match e with
  | EvOp o r =>
      match o return result (ret_type o) -> bool with
      | IsVisible (Locator OVERLAY_SELECTOR) _ => fun r =>
          match r with Ok true => true | _ => false end
      | ToBeVisible (Locator OVERLAY_SELECTOR) _ => fun r =>
          match r with Ok _ => true | Raise _ => false end
      | _ => fun _ => false
      end r
  | _ => false
  end.

Definition is_clear_button (s : selector) : bool :=
  match s with CLEAR_CHAT_BUTTON_SELECTOR => true | _ => false end.

(** No event of the trace is a click. *)
Definition no_click (tr : list event) : Prop := Forall (fun e => is_click_event e = false) tr.

(** The wait for the clear-chat button to be enabled failed. *)
Definition clear_unavailable (tr : list event) : bool :=
  existsb (fun e => match e with
                    | EvOp (ToBeEnabled (Locator CLEAR_CHAT_BUTTON_SELECTOR) _) (Raise _) => true
                    | _ => false
                    end) tr.

(** A click on the clear-chat button or on the confirm control. *)
Definition dialog_click (e : event) : bool :=
  clicks_on is_clear_button e || clicks_on is_confirm e.

(** Neither the clear-chat button nor the confirm control was clicked. *)
Definition dialog_untouched (tr : list event) : bool := negb (existsb dialog_click tr).

(** ** The removal of the chips *)

Definition is_remove_click (o : op) : bool :=
  match o with
  | Click (First (Locator MAT_CHIP_REMOVE_BUTTON_SELECTOR)) _ => true
  | _ => false
  end.

(** The number of clicks on a remove button. *)
Definition removals (tr : list event) : nat :=
  length (List.filter is_remove_click (ops_of tr)).

(** What a count of the remove buttons answered. *)
Definition counted (e : event) : option nat :=
  match e with
  | EvOp o r =>
      match o return result (ret_type o) -> option nat with
      | Count (Locator MAT_CHIP_REMOVE_BUTTON_SELECTOR) => fun r =>
          match r with Ok n => Some n | Raise _ => None end
      | _ => fun _ => None
      end r
  | _ => None
  end.

(** The answer of the first count that succeeded; 0 when there is none. *)
Definition initial_chip_count (tr : list event) : nat := hd O (omap counted tr).

(** ** Handing the files over *)

(** The operations that give the files [image_list] to the page, when they
    succeed: [set_input_files] on an input, [set_files] on a file chooser,
    and the synthetic ['drop'] event that carries them. *)
Definition hands_over (image_list : list string) (e : event) : bool :=
  match e with
  | EvOp (SetInputFiles _ files) (Ok _) => bool_decide (files = image_list)
  | EvOp (FileChooserSetFiles files) (Ok _) => bool_decide (files = image_list)
  | EvOp (DispatchEvent _ type (Some files)) (Ok _) =>
      String.eqb type "drop" && bool_decide (files = image_list)
  | _ => false
  end.

Section Handed.
Context `{Browser}.

(** An attempt that answers, and answers true only when an event that
    satisfies [p] took place. *)
Definition true_only_after (p : event -> bool)
    (res : result bool) (s' : state) (tr : list event) : Prop :=
  (exists b, res = Ok b) /\ (res = Ok true -> existsb p tr = true).

End Handed.

(** ** Looking at the page without touching it *)

(** The operations that only look at the page. *)
Definition is_observation (o : op) : bool :=
  match o with
  | Count _ | IsVisible _ _ | IsEnabled _ | TextContent _ | PageUrl | PageTitle => true
  | _ => false
  end.

Definition passive (tr : list event) : bool := forallb is_observation (ops_of tr).

(** A click that the page accepted. *)
Definition ok_click (e : event) : bool :=
  match e with
  | EvOp (Click _ _) (Ok _) => true
  | _ => false
  end.

Definition successful_clicks (tr : list event) : nat := length (List.filter ok_click tr).

#[global] Instance selector_eq_dec : EqDecision selector.
Proof. solve_decision. Defined.

(** A click on the first element matching one of the selectors [sels]. *)
Definition clicks_first_of (sels : list selector) (e : event) : bool :=
  match e with
  | EvOp (Click (First (Locator sel)) None) _ => bool_decide (sel ∈ sels)
  | _ => false
  end.

(** An accepted click on the first element matching one of the
    function-button selectors. *)
Definition pressed_function_button (e : event) : bool :=
  ok_click e && clicks_first_of function_button_selectors e.

Section Acknowledgement.
Context `{Browser}.

(** A statement that only looked: it ended normally, the cache is as it
    was, and every operation was an observation. *)
Definition passive_post {A} (s : state) (res : result A) (s' : state) (tr : list event) : Prop :=
  (exists a, res = Ok a) /\ s_cache s' = s_cache s /\ passive tr = true.

(** What one attempt to agree guarantees: it answers, its answer tells
    whether a click was accepted, no click was accepted otherwise, and
    every click is on a button of [sels]. *)
Definition agree_post (sels : list selector)
    (res : result bool) (s' : state) (tr : list event) : Prop :=
  (exists b, res = Ok b /\ successful_clicks tr = if b then 1%nat else 0%nat)
  /\ forallb (fun e => negb (is_click_event e) || clicks_first_of sels e) tr = true.

End Acknowledgement.

(** ** A page with every control *)

(** A page that answers every operation and on which every selector
    matches one element. *)
Definition one_of_each : Sim.behaviour :=
  {| Sim.shows := fun _ => ""; Sim.fails := fun _ _ => None;
     Sim.disconnected_at := fun _ _ => false;
     Sim.dialog_closes := true; Sim.shortcut_works := true; Sim.counts := fun _ => 1%nat;
     Sim.url := "https://aistudio.google.com/prompts/new_chat" |}.

(* ===================================================================== *)
(** * 7. Properties *)
(* ===================================================================== *)

Arguments bind {_ _ _} m f s /.
Arguments try_except {_ _} m h s /.
Arguments perform {_} o s /.
Arguments log {_} lv msg s /.
Arguments ret {_ _} a s /.
Arguments raise {_ _} e s /.
Arguments cache_get {_} key s /.
Arguments cache_set {_} key v s /.
Arguments cache_pop {_} key s /.
Arguments when {_} b m /.
Arguments _check_disconnect {_} stage /.
Arguments float_ {_} s /.
Arguments int_ {_} s /.
Arguments number {_} v /.

(** Unfolds the monad on known arguments. *)
Ltac exec :=
  cbn [bind try_except perform log ret raise cache_get cache_set cache_pop when
       _check_disconnect float_ int_ number res_of state_of trace_of fst snd app
       s_page s_cache is_disconnect is_value_error is_value_or_type_error is_timeout] in *.

(** ** Rules for [wp] *)

Section WPRules.
Context `{Browser}.

Lemma wp_ret {A} (a : A) s Q : Q (Ok a) s [] -> wp (ret a) s Q.
Proof. exact (fun q => q). Qed.

Lemma wp_raise {A} e s (Q : result A -> state -> list event -> Prop) :
  Q (Raise e) s [] -> wp (raise e) s Q.
Proof. exact (fun q => q). Qed.

Lemma wp_log lv msg s Q : Q (Ok tt) s [EvLog lv msg] -> wp (log lv msg) s Q.
Proof. exact (fun q => q). Qed.

Lemma wp_cache_get key s Q : Q (Ok (s_cache s !! key)) s [] -> wp (cache_get key) s Q.
Proof. exact (fun q => q). Qed.

Lemma wp_cache_set key v s Q :
  Q (Ok tt) (State (s_page s) (<[key := v]> (s_cache s))) [EvCacheSet key v] ->
  wp (cache_set key v) s Q.
Proof. exact (fun q => q). Qed.

Lemma wp_cache_pop key s Q :
  Q (Ok tt) (State (s_page s) (delete key (s_cache s))) [EvCachePop key] ->
  wp (cache_pop key) s Q.
Proof. exact (fun q => q). Qed.

Lemma wp_perform o s Q :
  (forall r p, Q r (State p (s_cache s)) [EvOp o r]) -> wp (perform o) s Q.
Proof.
  intros HQ. unfold wp, perform, res_of, state_of, trace_of.
  destruct (handle o (s_page s)) as [r p]. apply HQ.
Qed.

Lemma wp_bind {A B} (m : M A) (f : A -> M B) s Q :
  wp m s (fun r s1 t1 =>
            match r with
            | Ok a => wp (f a) s1 (fun r2 s2 t2 => Q r2 s2 (t1 ++ t2)%list)
            | Raise e => Q (Raise e) s1 t1
            end) ->
  wp (bind m f) s Q.
Proof.
  unfold wp, bind, res_of, state_of, trace_of.
  destruct (m s) as [[[a|e] s1] t1]; cbn; [|exact (fun q => q)].
  destruct (f a s1) as [[r2 s2] t2]. exact (fun q => q).
Qed.

Lemma wp_try_except {A} (m : M A) (h : exn -> M A) s Q :
  wp m s (fun r s1 t1 =>
            match r with
            | Ok a => Q (Ok a) s1 t1
            | Raise e => wp (h e) s1 (fun r2 s2 t2 => Q r2 s2 (t1 ++ t2)%list)
            end) ->
  wp (try_except m h) s Q.
Proof.
  unfold wp, try_except, res_of, state_of, trace_of.
  destruct (m s) as [[[a|e] s1] t1]; cbn; [exact (fun q => q)|].
  destruct (h e s1) as [[r2 s2] t2]. exact (fun q => q).
Qed.

(** A consequence rule. *)
Lemma wp_mono {A} (m : M A) s (Q Q' : result A -> state -> list event -> Prop) :
  wp m s Q -> (forall r s' t, Q r s' t -> Q' r s' t) -> wp m s Q'.
Proof. unfold wp. auto. Qed.

End WPRules.

(** One step of symbolic execution under [wp]. *)
Ltac wp_step :=
  lazymatch goal with
  | |- wp (bind _ _) _ _ => apply wp_bind
  | |- wp (try_except _ _) _ _ => apply wp_try_except
  | |- wp (perform ?o) ?s ?Q => refine (wp_perform o s Q _); intros [?|?] ?
  | |- wp (log _ _) _ _ => apply wp_log
  | |- wp (ret _) _ _ => apply wp_ret
  | |- wp (raise _) _ _ => apply wp_raise
  | |- wp (cache_get _) _ _ => apply wp_cache_get
  | |- wp (cache_set _ _) _ _ => apply wp_cache_set
  | |- wp (cache_pop _) _ _ => apply wp_cache_pop
  | |- wp (when ?b _) _ _ => unfold when at 1
  | |- wp (_check_disconnect _) _ _ => unfold _check_disconnect at 1
  | |- wp (float_ ?x) _ _ => unfold float_ at 1; destruct (float_of_str x) eqn:?
  | |- wp (int_ ?x) _ _ => unfold int_ at 1; destruct (int_of_str x) eqn:?
  | |- wp (number ?x) _ _ => unfold number at 1; destruct (as_num x) eqn:?
  | |- wp (if ?b then _ else _) _ _ => destruct b eqn:?
  | |- wp (match ?x with _ => _ end) _ _ => destruct x eqn:?
  end;
  cbn beta iota delta [s_page s_cache is_value_error is_value_or_type_error is_disconnect
                         is_timeout negb].

Ltac wp_run := repeat wp_step.

(** ** The Python data model on examples *)

Example strip_ex : strip "  b	 " = "b".
Proof. reflexivity. Qed.

Example int_of_str_ex :
  int_of_str "7" = Some 7 /\ int_of_str " -12 " = Some (-12) /\ int_of_str "1_000" = Some 1000
  /\ int_of_str "bogus" = None /\ int_of_str "" = None /\ int_of_str "1__0" = None
  /\ int_of_str "7.5" = None /\ int_of_str "+" = None.
Proof. repeat split; reflexivity. Qed.

Example float_of_str_ex :
  float_of_str "1.5" = Some (Finite (3 # 2)) /\ float_of_str " 2 " = Some (Finite 2)
  /\ float_of_str "-.5e1" = Some (Finite (-5 # 1)) /\ float_of_str "1e-3" = Some (Finite (1 # 1000))
  /\ float_of_str "NaN" = Some NaN /\ float_of_str "-inf" = Some (Inf true)
  /\ float_of_str "." = None /\ float_of_str "abc" = None /\ float_of_str "" = None.
Proof. repeat split; vm_compute; reflexivity. Qed.

Section Properties.
Context `{Browser} `{Config}.

(** ** Search grounding *)

Lemma is_google_search_tool_true tool :
  is_google_search_tool tool = Some true -> search_directive tool.
Proof.
  destruct tool as [| | | | |l|d]; try discriminate. cbn.
  destruct (is_not_none (dict_get d "google_search_retrieval")) eqn:Hg.
  - intros _. exists d. auto.
  - destruct (dict_get d "function") as [[| | | | | |f]|] eqn:Hf; try discriminate.
    destruct (dict_get f "name") as [v|] eqn:Hn; try discriminate.
    destruct v; try discriminate. cbn. intros [= Heq].
    apply String.eqb_eq in Heq. subst. exists d. split; [reflexivity|]. right. eauto.
Qed.

Lemma is_google_search_tool_directive tool :
  search_directive tool -> is_google_search_tool tool = Some true.
Proof.
  intros (d & -> & [Hg | (f & Hf & Hn)]); cbn.
  - now rewrite Hg.
  - destruct (is_not_none _); [reflexivity|]. rewrite Hf, Hn. reflexivity.
Qed.

Lemma is_google_search_tool_well_formed tool :
  well_formed_tool tool -> is_google_search_tool tool <> None.
Proof.
  destruct tool as [| | | | |l|d]; cbn; try discriminate.
  destruct (is_not_none _); [discriminate|].
  destruct (dict_get d "function") as [[| | | | | |f]|]; cbn; intros Hw; try discriminate; contradiction.
Qed.

Lemma has_google_search_tool_spec tools (s : state) :
  let r := has_google_search_tool tools s in
  state_of r = s /\ trace_of r = [] /\
  (res_of r = Ok true \/ res_of r = Ok false \/ res_of r = Raise AttributeError) /\
  (res_of r = Ok true -> exists tool, In tool tools /\ search_directive tool) /\
  (res_of r = Ok false -> forall tool, In tool tools -> ~ search_directive tool) /\
  (Forall well_formed_tool tools -> res_of r <> Raise AttributeError).
Proof.
  induction tools as [|tool tools IH]; cbn.
  - repeat split; auto; try discriminate.
  - destruct (is_google_search_tool tool) as [[|]|] eqn:Ht; cbn.
    + repeat split; auto; try discriminate.
      intros _. exists tool. split; [now left|]. now apply is_google_search_tool_true.
    + destruct IH as (Hs & Htr & Hres & Ht1 & Hf1 & Hw). repeat split; auto.
      * intros Hr. destruct (Ht1 Hr) as (x & Hin & Hx). exists x. split; [now right|assumption].
      * intros Hr x [<- | Hin] Hd.
        -- apply is_google_search_tool_directive in Hd. congruence.
        -- exact (Hf1 Hr x Hin Hd).
      * intros Hall. inversion Hall; subst. auto.
    + repeat split; auto; try discriminate.
      intros Hall. inversion Hall as [|? ? Hw ?]; subst.
      now apply is_google_search_tool_well_formed in Hw.
Qed.


(** ** Thinking-budget resolution *)


(** ** The ceiling for max output tokens *)




End Properties.

Section LogPrefix.
Context `{Browser}.

(** ** Traces that start with log records *)

Lemma is_warning_is_log e : is_warning e -> is_log e.
Proof. intros [-> | ->]; eexists _, _; reflexivity. Qed.



Lemma ops_of_app t1 t2 : ops_of (t1 ++ t2) = (ops_of t1 ++ ops_of t2)%list.
Proof. unfold ops_of. apply omap_app. Qed.

Lemma logs_no_ops pre : Forall is_log pre -> ops_of pre = [].
Proof. induction 1 as [|e t (lv & m & ->) _ IH]; [reflexivity|exact IH]. Qed.

Lemma ops_of_logs pre t : Forall is_log pre -> ops_of (pre ++ t) = ops_of t.
Proof. intros Hp. now rewrite ops_of_app, logs_no_ops. Qed.

Lemma ui_ops_logs pre t : Forall is_log pre -> ui_ops (pre ++ t) = ui_ops t.
Proof. intros Hp. unfold ui_ops. now rewrite ops_of_logs. Qed.

Lemma filled_logs f pre t : Forall is_log pre -> filled f (pre ++ t) = filled f t.
Proof. intros Hp. unfold filled. now rewrite ops_of_logs. Qed.

Lemma typed_stops_logs pre t : Forall is_log pre -> typed_stops (pre ++ t) = typed_stops t.
Proof. intros Hp. unfold typed_stops. now rewrite ops_of_logs. Qed.



Lemma last_app_some {A} (pre t : list A) x : last t = Some x -> last (pre ++ t) = Some x.
Proof.
  intros Ht. destruct t as [|y t]; [discriminate|].
  rewrite last_app. now rewrite Ht.
Qed.

Lemma logged_app lv t1 t2 : logged lv (t1 ++ t2) = (logged lv t1 ++ logged lv t2)%list.
Proof. unfold logged. apply omap_app. Qed.

Lemma committed_logs key v (s : state) res s' pre t :
  committed key v s (res, s', t) -> committed key v s (res, s', (pre ++ t)%list).
Proof. intros [Hc Hl]. split; [exact Hc|]. now apply last_app_some. Qed.


End LogPrefix.

(** ** The cached scalar fields: temperature and max output tokens *)


Section ScalarSpecs.
Context `{Browser} `{Config}.


End ScalarSpecs.

Section AdjustPost.
Context `{Browser} `{Config}.




End AdjustPost.

Ltac log_list :=
  repeat first [ apply Forall_nil_2
               | apply Forall_cons_2; [do 2 eexists; reflexivity|]
               | apply Forall_app_2
               | eapply Forall_impl; [eassumption | exact is_warning_is_log] ].

(** The part of a trace [tr] that precedes its tail [t]. *)
Ltac split_trace tr t :=
  lazymatch tr with
  | t => constr:(@nil event)
  | ?e :: ?r => let p := split_trace r t in constr:(e :: p)
  | (?a ++ ?r)%list => let p := split_trace r t in constr:((a ++ p)%list)
  end.




Section AdjustSpecs.
Context `{Browser} `{Config}.



End AdjustSpecs.

(** ** The fields without a cache entry: top-p and the thinking budget *)

Ltac uncached_leaf :=
  unfold uncached_sync_post;
  cbn [app];
  split; [cbn; repeat constructor|];
  split; [reflexivity|];
  split; [eexists; reflexivity|];
  cbn; intros m Hm; repeat destruct Hm as [<- | Hm]; try reflexivity; contradiction.

Section UncachedSpecs.
Context `{Browser} `{Config}.


Lemma sync_thinking_budget_input_spec (s : state) token_budget :
  wp (sync_thinking_budget_input token_budget) s
     (uncached_sync_post (Locator THINKING_BUDGET_INPUT_SELECTOR) is_budget_input token_budget
        "⚠️ 思考预算更新后验证失败。" s).
Proof.
  unfold sync_thinking_budget_input.
  wp_run.
  all: solve [uncached_leaf].
Qed.


End UncachedSpecs.

(** ** Stop sequences *)

Section StopTraces.
Context `{Browser} `{Config}.





End StopTraces.

Section StopSpecs.
Context `{Browser} `{Config}.

Let chips := Locator MAT_CHIP_REMOVE_BUTTON_SELECTOR.




End StopSpecs.

Section StopSync.
Context `{Browser} `{Config}.







End StopSync.

(** ** The loop that waits for the confirmation dialog to go away *)

Ltac wait_leaf :=
  unfold wait_post; cbn [app];
  split; [cbn; repeat apply prefix_cons; first [apply prefix_nil | assumption | reflexivity]|];
  split; [cbn [timeouts timed_out]; rewrite ?Nat.add_0_l;
          repeat match goal with Hb : is_timeout _ = _ |- _ => rewrite Hb end; cbn; lia|];
  split; [cbn [timeouts timed_out]; rewrite ?Nat.add_0_l;
          repeat match goal with Hb : is_timeout _ = _ |- _ => rewrite Hb end; cbn;
          first [ discriminate
                | intros _; split; [eexists; reflexivity | cbn; unfold dialog_timeout_tag; tauto]
                | lia ]|];
  first [ discriminate | intros _; split; reflexivity ].

(** A branch that goes on to the next attempt: use what is known of it. *)
Ltac wait_next spec :=
  eapply wp_mono; [apply spec|];
  cbn beta; intros ? ? ? (Hsched & Hbound & Hall & Hok);
  unfold wait_post; cbn [app];
  split; [cbn; repeat apply prefix_cons; exact Hsched|];
  cbn [timeouts timed_out]; rewrite ?Nat.add_0_l;
  repeat match goal with Hb : is_timeout _ = _ |- _ => rewrite Hb end;
  cbn [Nat.add];
  split; [lia|];
  split; [ first [ intros Hn; exfalso; lia
                 | intros Hn; injection Hn as Hn; destruct (Hall Hn) as [Hres Hin];
                   split; [exact Hres | cbn; tauto] ]
         | intros Hr; destruct (Hok Hr) as [Hsc Hso];
           split; [first [exact Hsc | reflexivity] | first [exact Hso | reflexivity]] ].

Section ResetSpecs.
Context `{Browser} `{Config}.

Let confirm := Locator CLEAR_CHAT_CONFIRM_BUTTON_SELECTOR.
Let overlay := Locator OVERLAY_SELECTOR.

(** The last attempt: it ends the loop, whatever would follow. *)
Lemma wait_dialog_gone_last rest (s : state) :
  wp (wait_dialog_gone confirm overlay 3 (2%nat :: rest)) s (wait_post 1).
Proof.
  cbn [wait_dialog_gone]. change (2 <? 3 - 1)%nat with false. cbn iota.
  wp_run.
  all: solve [wait_leaf].
Qed.

(** An attempt before the last: it ends the loop or goes on to the next. *)
Lemma wait_dialog_gone_step a n rest :
  (a <? 2)%nat = true ->
  (forall s : state, wp (wait_dialog_gone confirm overlay 3 rest) s (wait_post (S n))) ->
  forall s : state,
    wp (wait_dialog_gone confirm overlay 3 (a :: rest)) s (wait_post (S (S n))).
Proof.
  intros Ha IH s.
  cbn [wait_dialog_gone]. change (3 - 1)%nat with 2%nat. rewrite Ha. cbn iota.
  wp_run.
  all: first [ solve [wait_leaf] | wait_next IH ].
Qed.

Lemma wait_dialog_gone_spec (s : state) :
  wp (wait_dialog_gone confirm overlay 3 (range 3)) s (wait_post 3).
Proof.
  revert s. unfold range. cbn [seq].
  apply wait_dialog_gone_step; [reflexivity|].
  apply wait_dialog_gone_step; [reflexivity|].
  apply wait_dialog_gone_last.
Qed.

End ResetSpecs.

(** ** Session reset *)

Section Reset.
Context `{Browser} `{Config}.

Lemma polls_follow_confirm_clicked tr : polls_follow_confirm true tr = true.
Proof. induction tr as [|e tr IH]; cbn; [reflexivity|]. destruct (is_poll e); exact IH. Qed.

Lemma execute_chat_clear_spec (s : state) :
  wp (_execute_chat_clear (Locator CLEAR_CHAT_BUTTON_SELECTOR)
        (Locator CLEAR_CHAT_CONFIRM_BUTTON_SELECTOR) (Locator OVERLAY_SELECTOR)) s reset_post.
Proof.
  unfold _execute_chat_clear.
  wp_run.
  all: lazymatch goal with
       | |- wp (wait_dialog_gone _ _ _ _) _ _ =>
           eapply wp_mono; [apply wait_dialog_gone_spec|];
           cbn beta; intros ? ? ? (Hsched & Hbound & Hall & Hok);
           unfold reset_post, wait_post; cbn [app];
           split; [split; [exact Hsched | split; [exact Hbound | split]]|];
           [ intros Hn; destruct (Hall Hn) as [Hres Hin]; split; [exact Hres | cbn; tauto]
           | exact Hok
           | cbn; apply polls_follow_confirm_clicked ]
       | |- _ =>
           unfold reset_post, wait_post; cbn [app];
           split; [split; [apply prefix_nil | split; [cbn; lia | split; [cbn; discriminate | discriminate]]]
                  | reflexivity]
       end.
Qed.

(** C10.  After the click on the confirm control, [_execute_chat_clear]
    polls for the dialog to go away at most three times, with a one-second
    pause between consecutive polls and nothing after the third: the polls
    and pauses of a run are a prefix of poll, pause, poll, pause, poll, and
    no poll comes before the click.  A run that ends normally has seen both
    the confirm control and the overlay hidden.  At most three waits time
    out, and when three do the run ends in an error, after the snapshot
    tagged [clear_chat_dialog_disappear_timeout] has been taken. *)
Theorem session_reset_retry_bound (s : state) :
  let r := _execute_chat_clear (Locator CLEAR_CHAT_BUTTON_SELECTOR)
             (Locator CLEAR_CHAT_CONFIRM_BUTTON_SELECTOR) (Locator OVERLAY_SELECTOR) s in
  let tr := trace_of r in
  polls_follow_confirm false tr = true
  /\ schedule tr `prefix_of` [Poll; Backoff; Poll; Backoff; Poll]
  /\ (timeouts tr <= 3)%nat
  /\ (timeouts tr = 3%nat ->
      (exists e, res_of r = Raise e)
      /\ In (SaveErrorSnapshot dialog_timeout_tag) (ops_of tr))
  /\ (res_of r = Ok tt ->
      saw_hidden is_confirm tr = true /\ saw_hidden is_overlay tr = true).
Proof.
  destruct (execute_chat_clear_spec s) as [(Hsched & Hbound & Hall & Hok) Hpolls].
  cbv zeta. auto.
Qed.

End Reset.

(** ** Submission by shortcut *)

Section Shortcut.
Context `{Browser} `{Config}.

Lemma clicked_app t1 t2 : clicked (t1 ++ t2) = clicked t1 || clicked t2.
Proof. unfold clicked. rewrite ops_of_app. apply existsb_app. Qed.

(** Nothing is clicked up to the key press and the pause after it. *)
Lemma press_shortcut_no_click l (s : state) :
  wp (press_shortcut l) s (fun _ _ tr => clicked tr = false).
Proof.
  unfold press_shortcut, is_mac_determined.
  wp_run.
  all: reflexivity.
Qed.

(** The three checks click nothing, and the only error that leaves them is
    the one of the first read of the prompt field. *)
Lemma shortcut_verification_spec l original_content (s : state) :
  wp (shortcut_verification l original_content) s (fun res _ tr =>
    clicked tr = false
    /\ forall e, res = Raise e -> tr = [EvOp (InputValue l 2000) (Raise e)]).
Proof.
  unfold shortcut_verification.
  wp_run.
  all: split; [reflexivity | intros ? [=]; subst; reflexivity].
Qed.

End Shortcut.

Section ShortcutClaim.
Context `{Browser} `{Config}.

Lemma press_shortcut_clicks l (s : state) : clicked (trace_of (press_shortcut l s)) = false.
Proof. exact (press_shortcut_no_click l s). Qed.

Lemma shortcut_verification_clicks l oc (s : state) :
  clicked (trace_of (shortcut_verification l oc s)) = false.
Proof. exact (proj1 (shortcut_verification_spec l oc s)). Qed.

(** The fallback starts with the click on the submit control. *)
Lemma click_submit_button_clicks sb (s : state) :
  In (Click sb (Some 5000)) (ops_of (trace_of (click_submit_button sb s))).
Proof.
  change (wp (click_submit_button sb) s (fun _ _ tr => In (Click sb (Some 5000)) (ops_of tr))).
  unfold click_submit_button. wp_run; cbn; auto.
Qed.

(** C8, as amended.  What [submit_prompt] does to trigger the submission,
    by how the shortcut attempt goes.  When the verification raises, which
    only the first read of the prompt field can make it do, the attempt
    counts as a success: [_try_shortcut_submit] returns true and nothing is
    clicked.  When the verification completes, its verdict is returned, and
    the submit control is clicked exactly when the verdict is false.  When
    a step before the verification raises an error that is not a
    disconnection, [_try_shortcut_submit] returns false and the submit
    control is clicked as well. *)
Theorem shortcut_fallback (l sb : locator) (s : state) :
  let r := submit_by_shortcut_or_click l sb s in
  (forall original_content s1 t1 e s2 t2,
      press_shortcut l s = (Ok original_content, s1, t1) ->
      shortcut_verification l original_content s1 = (Raise e, s2, t2) ->
      t2 = [EvOp (InputValue l 2000) (Raise e)]
      /\ res_of (_try_shortcut_submit l s) = Ok true
      /\ clicked (trace_of r) = false /\ res_of r = Ok tt)
  /\ (forall original_content s1 t1 b s2 t2,
      press_shortcut l s = (Ok original_content, s1, t1) ->
      shortcut_verification l original_content s1 = (Ok b, s2, t2) ->
      res_of (_try_shortcut_submit l s) = Ok b
      /\ (if b then clicked (trace_of r) = false
          else In (Click sb (Some 5000)) (ops_of (trace_of r))))
  /\ (forall e s1 t1,
      press_shortcut l s = (Raise e, s1, t1) -> is_disconnect e = false ->
      res_of (_try_shortcut_submit l s) = Ok false
      /\ In (Click sb (Some 5000)) (ops_of (trace_of r))).
Proof.
  pose proof (press_shortcut_clicks l s) as Hp.
  unfold submit_by_shortcut_or_click, _try_shortcut_submit, verify_shortcut_submission.
  split; [|split].
  - intros oc s1 t1 e s2 t2 Hpress Hver.
    pose proof (shortcut_verification_spec l oc s1) as [Hv Hfirst].
    rewrite Hver in Hv, Hfirst. cbn [res_of state_of trace_of fst snd] in Hv, Hfirst.
    split; [exact (Hfirst e eq_refl)|].
    exec. rewrite Hpress in *. exec. rewrite Hver in *. exec. cbn [negb]. exec.
    rewrite !clicked_app, Hp, Hv. auto.
  - intros oc s1 t1 b s2 t2 Hpress Hver.
    pose proof (shortcut_verification_clicks l oc s1) as Hv.
    destruct b; exec; rewrite Hpress in *; exec; rewrite Hver in *; exec; cbn [negb]; exec.
    + rewrite !clicked_app, Hp, Hv. auto.
    + split; [reflexivity|].
      pose proof (click_submit_button_clicks sb s2) as Hc.
      destruct (click_submit_button sb s2) as [[r0 s0] t0]. exec.
      rewrite !ops_of_app, !in_app_iff. right. exact Hc.
  - intros e s1 t1 Hpress _.
    exec. rewrite Hpress in *. exec. cbn [negb]. exec.
    split; [reflexivity|].
    pose proof (click_submit_button_clicks sb s1) as Hc.
    destruct (click_submit_button sb s1) as [[r0 s0] t0]. exec.
    rewrite !ops_of_app, !in_app_iff. right. exact Hc.
Qed.

End ShortcutClaim.

(** ** Upload *)

Section Upload.
Context `{Browser} `{Config}.





End Upload.

(** ** The requested stop sequences as a set *)

Section Normalization.





End Normalization.

(** ** The parameter cache *)

Section CachedFields.
Context `{Browser} `{Config}.





End CachedFields.

(** ** Clamping *)

Section Clamp.

Lemma flt_finite x y : flt (Finite x) (Finite y) = true <-> (x < y)%Q.
Proof.
  cbn. rewrite negb_true_iff. split.
  - intros Hb. apply Qnot_le_lt. intros Hle. apply Qle_bool_iff in Hle. congruence.
  - intros Hlt. destruct (Qle_bool y x) eqn:Hb; [|reflexivity].
    apply Qle_bool_iff in Hb. exfalso. exact (Qlt_not_le _ _ Hlt Hb).
Qed.

Lemma flt_finite_false x y : flt (Finite x) (Finite y) = false <-> (y <= x)%Q.
Proof. cbn. rewrite negb_false_iff. apply Qle_bool_iff. Qed.

(** [clamp] on finite numbers is the number between the bounds that is
    nearest to the argument: its value is [max a (min b q)]. *)
Lemma clamp_value (lo hi x : pynum) (a b q : Q) :
  num_val lo = Finite a -> num_val hi = Finite b -> num_val x = Finite q ->
  exists c, num_val (clamp lo hi x) = Finite c /\ (c == Qmax a (Qmin b q))%Q.
Proof.
  intros Hlo Hhi Hx. unfold clamp, max2, min2, num_lt.
  rewrite Hx, Hhi.
  destruct (flt (Finite q) (Finite b)) eqn:Hqb.
  - apply flt_finite, Qlt_le_weak in Hqb. rewrite Hlo, Hx.
    destruct (flt (Finite a) (Finite q)) eqn:Haq.
    + apply flt_finite, Qlt_le_weak in Haq. exists q. split; [exact Hx|].
      rewrite (Q.min_r _ _ Hqb). symmetry. now apply Q.max_r.
    + apply flt_finite_false in Haq. exists a. split; [exact Hlo|].
      rewrite (Q.min_r _ _ Hqb). symmetry. now apply Q.max_l.
  - apply flt_finite_false in Hqb. rewrite Hlo, Hhi.
    destruct (flt (Finite a) (Finite b)) eqn:Hab.
    + apply flt_finite, Qlt_le_weak in Hab. exists b. split; [exact Hhi|].
      rewrite (Q.min_l _ _ Hqb). symmetry. now apply Q.max_r.
    + apply flt_finite_false in Hab. exists a. split; [exact Hlo|].
      rewrite (Q.min_l _ _ Hqb). symmetry. now apply Q.max_l.
Qed.

End Clamp.

Section Clamping.
Context `{Browser} `{Config}.

(** The ceiling is 65536 unless the model id is not empty, the catalog has
    an entry with that id, and [int] of the entry's
    ['supported_max_output_tokens'] is positive: then it is that integer. *)
Lemma token_ceiling_spec id l :
  (exists m v, id <> "" /\ find_model l id = Some m
               /\ dict_get m "supported_max_output_tokens" = Some v
               /\ int_of v = inr (token_ceiling id l) /\ 0 < token_ceiling id l)
  \/ (token_ceiling id l = 65536
      /\ (id = "" \/ find_model l id = None
          \/ exists m, find_model l id = Some m
               /\ match dict_get m "supported_max_output_tokens" with
                  | None => True
                  | Some v => match int_of v with inr z => z <= 0 | inl _ => True end
                  end)).
Proof.
  unfold token_ceiling.
  destruct (String.eqb id "") eqn:Hid.
  { apply String.eqb_eq in Hid. right. auto. }
  apply String.eqb_neq in Hid.
  destruct (find_model l id) as [m|] eqn:Hm; [|right; auto].
  destruct (dict_get m "supported_max_output_tokens") as [v|] eqn:Hv.
  2:{ right. split; [reflexivity|]. right. right. exists m. rewrite Hv. auto. }
  destruct (int_of v) as [err|z] eqn:Hz.
  { right. split; [reflexivity|]. right. right. exists m. rewrite Hv, Hz. auto. }
  destruct (0 <? z) eqn:Hpos.
  - apply Z.ltb_lt in Hpos. left. exists m, v. auto.
  - apply Z.ltb_ge in Hpos. right. split; [reflexivity|]. right. right.
    exists m. rewrite Hv, Hz. auto.
Qed.


End Clamping.

Section StopClaim.
Context `{Browser} `{Config}.


End StopClaim.

(** ** Cache short-circuit *)

Section ShortCircuit.
Context `{Browser} `{Config}.



End ShortCircuit.


(** ** What may leave [adjust_parameters] *)

Section EscapeRules.
Context `{Browser} `{Config}.


Lemma may_escape_app_l e t1 t2 : may_escape e t1 -> may_escape e (t1 ++ t2).
Proof.
  intros [Hd | [Ht | [Ha | (o & Ho & Hin)]]]; unfold may_escape; auto.
  right. right. right. exists o. split; [exact Ho|]. apply in_or_app. now left.
Qed.











End EscapeRules.



Section EscapeSpecs.
Context `{Browser} `{Config}.














End EscapeSpecs.


(** ** The toggles *)

(** The state read, when it differs from the desired one. *)
Lemma differs_negb (x d : bool) : negb (Bool.eqb x d) = true -> Bool.eqb x (negb d) = true.
Proof. destruct x, d; cbn; auto. Qed.

Lemma differs_negb_sym (x d : bool) : negb (Bool.eqb d x) = true -> Bool.eqb x (negb d) = true.
Proof. destruct x, d; cbn; auto. Qed.

Ltac toggle_leaf :=
  unfold toggle_post; cbn [app];
  split; [cbn; lia|];
  split; [repeat (apply Forall_cons_2; [cbn; first [discriminate | reflexivity | auto]|]);
          apply Forall_nil_2|];
  split; [cbn;
          repeat match goal with
                 | Hd : negb (Bool.eqb _ _) = true |- _ =>
                     first [ apply differs_negb in Hd; rewrite Hd
                           | apply differs_negb_sym in Hd; rewrite Hd ]
                 end; reflexivity|];
  split; [reflexivity|];
  intros ? [=]; subst; first [reflexivity | assumption].

Section Toggles.
Context `{Browser} `{Config}.

Lemma control_thinking_budget_toggle_spec should_be_checked (s : state) :
  wp (_control_thinking_budget_toggle should_be_checked) s
     (toggle_post is_thinking_toggle should_be_checked s).
Proof.
  unfold _control_thinking_budget_toggle.
  wp_run.
  all: solve [toggle_leaf].
Qed.

(** The thinking-budget toggle is clicked at most once, and only after its
    state was read and found to differ from the wanted one.  Whatever the
    page answers, [_control_thinking_budget_toggle] performs at most one
    click; a click is on the toggle and comes after a successful read of
    ['aria-checked'] that showed the opposite of [should_be_checked]; the
    cache is left as it was; and the only error it lets through is a
    disconnection. *)
Theorem thinking_toggle_clicked_only_off_target (should_be_checked : bool) (s : state) :
  let r := _control_thinking_budget_toggle should_be_checked s in
  let tr := trace_of r in
  (length (clicks tr) <= 1)%nat
  /\ Forall (fun e => is_click_event e = true -> clicks_on is_thinking_toggle e = true) tr
  /\ preceded_by (reads_checked is_thinking_toggle (negb should_be_checked))
       is_click_event false tr = true
  /\ s_cache (state_of r) = s_cache s
  /\ (forall e, res_of r = Raise e -> is_disconnect e = true).
Proof. exact (control_thinking_budget_toggle_spec should_be_checked s). Qed.

End Toggles.

Section SearchToggle.
Context `{Browser} `{Config}.

(** The decision about search costs one log record and nothing else, or
    fails on a malformed tool before anything is logged. *)
Lemma should_enable_google_search_run req (s : state) :
  _should_enable_google_search req s = (Raise AttributeError, s, [])
  \/ exists d msg, _should_enable_google_search req s = (Ok d, s, [EvLog INFO msg]).
Proof.
  unfold _should_enable_google_search.
  destruct (is_not_none (req !! "tools")); [|right; eexists _, _; reflexivity].
  destruct (req !! "tools") as [[| | | | |tools|]|]; try (right; eexists _, _; reflexivity).
  pose proof (has_google_search_tool_spec tools s) as (Hs & Ht & Hres & _).
  unfold res_of, state_of, trace_of in *. exec.
  destruct (has_google_search_tool tools s) as [[r s'] t]. cbn [fst snd] in *. subst s' t.
  destruct Hres as [-> | [-> | ->]]; exec; [right | right | left]; eauto.
Qed.

Lemma adjust_google_search_spec req (s : state) :
  wp (_adjust_google_search req) s (fun res s' tr =>
    (res_of (_should_enable_google_search req s) = Raise AttributeError
     /\ res = Raise AttributeError /\ ops_of tr = [] /\ s' = s)
    \/ exists d, res_of (_should_enable_google_search req s) = Ok d
                 /\ toggle_post is_search_toggle d s res s' tr).
Proof.
  unfold _adjust_google_search.
  apply wp_bind, wp_log. cbn beta iota. apply wp_bind. unfold wp at 1.
  destruct (should_enable_google_search_run req s) as [Heq | (d & msg & Heq)];
    rewrite Heq; cbn [res_of state_of trace_of fst snd app].
  - left. auto.
  - wp_run.
    all: right; exists d; split; [reflexivity|]; solve [toggle_leaf].
Qed.

(** [_open_url_content] lets nothing through, and clicks the URL-context
    toggle only after reading that it is not checked. *)
Lemma open_url_content_spec (s : state) :
  wp _open_url_content s (fun res s' tr =>
    res = Ok tt
    /\ s_cache s' = s_cache s
    /\ preceded_by reads_url_context_off (clicks_on is_url_context_toggle) false tr = true).
Proof.
  unfold _open_url_content.
  wp_run.
  all: split; [reflexivity|]; split; [reflexivity|];
       repeat match goal with
              | Hs : match ?a with Some _ => _ | None => false end = true |- _ =>
                  destruct a; [|discriminate Hs]
              end;
       repeat match goal with
              | Hs : String.eqb "false" ?a = true |- _ =>
                  apply String.eqb_eq in Hs; subst a
              end; reflexivity.
Qed.

(** The search toggle follows the decision, with at most one click.
    Either the scan of the request's tools fails with [AttributeError],
    and [_adjust_google_search] fails with it before any operation on the
    page; or the decision is a boolean, and then there is at most one
    click, on the search toggle, after a successful read of
    ['aria-checked'] that showed the opposite of the decision, the cache is
    left as it was, and the only error let through is a disconnection. *)
Theorem search_toggle_follows_decision (request_params : gmap string pyval) (s : state) :
  let d := res_of (_should_enable_google_search request_params s) in
  let r := _adjust_google_search request_params s in
  let tr := trace_of r in
  (d = Raise AttributeError
   /\ res_of r = Raise AttributeError /\ ops_of tr = [] /\ state_of r = s)
  \/ exists should_enable_search : bool,
       d = Ok should_enable_search
       /\ (length (clicks tr) <= 1)%nat
       /\ Forall (fun e => is_click_event e = true -> clicks_on is_search_toggle e = true) tr
       /\ preceded_by (reads_checked is_search_toggle (negb should_enable_search))
            is_click_event false tr = true
       /\ s_cache (state_of r) = s_cache s
       /\ (forall e, res_of r = Raise e -> is_disconnect e = true).
Proof. exact (adjust_google_search_spec request_params s). Qed.

(** Opening the URL context never fails and never switches it off.
    [_open_url_content] ends normally whatever the page answers, leaves
    the cache as it was, and clicks the URL-context toggle only after a
    successful read of ['aria-checked'] that gave ["false"]. *)
Theorem url_context_only_switched_on (s : state) :
  let r := _open_url_content s in
  res_of r = Ok tt
  /\ s_cache (state_of r) = s_cache s
  /\ preceded_by reads_url_context_off (clicks_on is_url_context_toggle) false
       (trace_of r) = true.
Proof. exact (open_url_content_spec s). Qed.

End SearchToggle.


(** ** The thinking budget *)

Section ThinkingBudget.
Context `{Browser} `{Config}.

Lemma filled_app f t1 t2 : filled f (t1 ++ t2) = (filled f t1 ++ filled f t2)%list.
Proof. unfold filled. rewrite ops_of_app. apply omap_app. Qed.

(** Driving the toggle fills nothing in. *)
Lemma control_thinking_budget_toggle_fills_nothing b (s : state) :
  wp (_control_thinking_budget_toggle b) s (fun _ _ tr => forall f, filled f tr = []).
Proof. unfold _control_thinking_budget_toggle. wp_run. all: reflexivity. Qed.

(** The resolution of the budget does not depend on the state, leaves it
    alone, and only writes log records. *)
Lemma parse_thinking_budget_run v (s : state) :
  exists b t, _parse_thinking_budget v s = (Ok b, s, t) /\ Forall is_log t
              /\ forall s' : state, res_of (_parse_thinking_budget v s') = Ok b.
Proof.
  unfold _parse_thinking_budget.
  destruct v as [| | | |str| |]; exec.
  all: try (eexists _, _; split; [reflexivity|]; split; [log_list | reflexivity]).
  destruct (String.eqb (lower str) "none"); exec.
  { eexists _, _; split; [reflexivity|]; split; [log_list | reflexivity]. }
  destruct (effort_map (lower str)); exec.
  { eexists _, _; split; [reflexivity|]; split; [log_list | reflexivity]. }
  destruct (int_of_str str); exec;
    (eexists _, _; split; [reflexivity|]; split; [log_list | reflexivity]).
Qed.

Lemma unresolvable_parse v (s : state) :
  unresolvable v -> res_of (_parse_thinking_budget v s) = Ok None.
Proof.
  unfold _parse_thinking_budget.
  destruct v as [| | | |str| |]; cbn [unresolvable]; try contradiction; try reflexivity.
  intros (Hn & He & Hi). apply String.eqb_neq in Hn. exec. rewrite Hn, He, Hi. reflexivity.
Qed.

(** What [_adjust_thinking_budget] writes: the resolved budget, or nothing
    at all when there is none. *)
Lemma adjust_thinking_budget_writes v (s : state) :
  wp (_adjust_thinking_budget v) s (fun _ _ tr =>
    match res_of (_parse_thinking_budget v s) with
    | Ok (Some budget) => Forall (eq (StrOf budget)) (filled is_budget_input tr)
    | _ => ops_of tr = []
    end).
Proof.
  unfold _adjust_thinking_budget.
  apply wp_bind, wp_log. cbn beta iota. apply wp_bind. unfold wp at 1.
  destruct (parse_thinking_budget_run v s) as (b & t & Heq & Hlog & Hany).
  rewrite Heq. cbn [res_of state_of trace_of fst snd].
  destruct b as [budget|].
  - eapply wp_mono; [apply sync_thinking_budget_input_spec|]. cbn beta.
    intros r s' t2 (Hf & _). cbn [app].
    change (filled is_budget_input (EvLog INFO ?m :: ?x)) with (filled is_budget_input x).
    rewrite filled_logs by exact Hlog. exact Hf.
  - apply wp_log. cbn [app].
    change (ops_of (EvLog INFO ?m :: ?x)) with (ops_of x).
    rewrite ops_of_app, (logs_no_ops _ Hlog). reflexivity.
Qed.

(** The budget field receives the resolved budget, or is left alone.
    In [_handle_thinking_budget]: without a [reasoning_effort] and with the
    budget disabled by default, the page operations are those of switching
    the toggle off; with a [reasoning_effort] that resolves to no budget,
    they are those of switching the toggle on, and the field is not
    touched; with one that resolves to a budget, whatever is written into
    the budget field is that budget. *)
Theorem thinking_budget_written_as_resolved (request_params : gmap string pyval) (s : state) :
  let r := _handle_thinking_budget request_params s in
  (is_not_none (request_params !! "reasoning_effort") = false ->
   ENABLE_THINKING_BUDGET = false ->
   ops_of (trace_of r) = ops_of (trace_of (_control_thinking_budget_toggle false s)))
  /\ (forall v, request_params !! "reasoning_effort" = Some v -> unresolvable v ->
      ops_of (trace_of r) = ops_of (trace_of (_control_thinking_budget_toggle true s)))
  /\ (forall v budget, request_params !! "reasoning_effort" = Some v -> v <> PNone ->
      res_of (_parse_thinking_budget v s) = Ok (Some budget) ->
      Forall (eq (StrOf budget)) (filled is_budget_input (trace_of r))).
Proof.
  cbv zeta. unfold _handle_thinking_budget. split; [|split].
  - intros Hnone Hoff. rewrite Hoff.
    destruct (request_params !! "reasoning_effort") as [[]|]; try discriminate Hnone; exec;
      destruct (_control_thinking_budget_toggle false s) as [[[[]|e] s1] t1]; exec;
      rewrite ?app_nil_r; reflexivity.
  - intros v Hv Hun. rewrite Hv.
    assert (Hgo : forall s1 : state,
               ops_of (trace_of (_adjust_thinking_budget v s1)) = []).
    { intros s1. pose proof (adjust_thinking_budget_writes v s1) as Hw.
      unfold wp in Hw. rewrite (unresolvable_parse v s1 Hun) in Hw. exact Hw. }
    destruct v; cbn [unresolvable] in Hun; try contradiction; exec;
      destruct (_control_thinking_budget_toggle true s) as [[[[]|e] s1] t1]; exec;
      try reflexivity;
      match goal with
      | |- context [_adjust_thinking_budget ?v s1] =>
          specialize (Hgo s1); destruct (_adjust_thinking_budget v s1) as [[r2 s2] t2]
      end; cbn [trace_of snd] in *;
      change (ops_of (EvLog INFO ?m :: ?x)) with (ops_of x);
      rewrite ops_of_app, Hgo; apply app_nil_r.
  - intros v budget Hv Hnn Hparse. rewrite Hv.
    assert (Hgo : forall s1 : state,
               Forall (eq (StrOf budget))
                 (filled is_budget_input (trace_of (_adjust_thinking_budget v s1)))).
    { intros s1. pose proof (adjust_thinking_budget_writes v s1) as Hw.
      unfold wp in Hw.
      destruct (parse_thinking_budget_run v s) as (b & t & Heq & _ & Hany).
      rewrite Heq in Hparse. cbn in Hparse. injection Hparse as ->.
      rewrite (Hany s1) in Hw. exact Hw. }
    pose proof (control_thinking_budget_toggle_fills_nothing true s) as Ht.
    unfold wp in Ht.
    destruct v; try congruence; exec;
      destruct (_control_thinking_budget_toggle true s) as [[[[]|e] s1] t1];
      cbn [trace_of snd] in Ht; exec;
      try (change (filled is_budget_input (EvLog INFO ?m :: ?x))
             with (filled is_budget_input x); rewrite Ht; constructor);
      match goal with
      | |- context [_adjust_thinking_budget ?v s1] =>
          specialize (Hgo s1); destruct (_adjust_thinking_budget v s1) as [[r2 s2] t2]
      end; cbn [trace_of snd] in *;
      change (filled is_budget_input (EvLog INFO ?m :: ?x)) with (filled is_budget_input x);
      rewrite filled_app, Ht; exact Hgo.
Qed.

End ThinkingBudget.


(** ** The order of the clicks of a chat reset *)

Section Order.

Lemma preceded_by_seen cause trigger tr : preceded_by cause trigger true tr = true.
Proof.
  induction tr as [|e tr IH]; cbn; [reflexivity|].
  rewrite orb_true_r. exact IH.
Qed.

(** Events that are no trigger can be appended. *)
Lemma preceded_by_app_quiet cause trigger seen t1 t2 :
  Forall (fun e => trigger e = false) t2 ->
  preceded_by cause trigger seen (t1 ++ t2) = preceded_by cause trigger seen t1.
Proof.
  intros Hq. revert seen. induction t1 as [|e t1 IH]; intros seen; cbn.
  - revert seen. induction Hq as [|e t2 He _ IH]; intros seen; cbn; [reflexivity|].
    rewrite He. cbn. apply IH.
  - now rewrite IH.
Qed.

Lemma clicks_app t1 t2 : clicks (t1 ++ t2) = (clicks t1 ++ clicks t2)%list.
Proof. unfold clicks. rewrite ops_of_app. apply List.filter_app. Qed.

Lemma no_click_clicks tr : no_click tr -> clicks tr = [].
Proof.
  induction 1 as [|e tr He _ IH]; [reflexivity|].
  destruct e as [o r| | |]; try exact IH.
  cbn in He. unfold clicks. cbn. rewrite He. exact IH.
Qed.

Lemma no_click_on is_sel tr : no_click tr -> Forall (fun e => clicks_on is_sel e = false) tr.
Proof.
  intros Hn. eapply Forall_impl; [exact Hn|]. cbn beta.
  intros [o r| | |] He; try reflexivity.
  destruct o; try reflexivity. discriminate He.
Qed.

End Order.

Section ResetOrder.
Context `{Browser} `{Config}.

(** The waiting loop clicks nothing. *)
Lemma wait_dialog_gone_no_click c o m attempts (s : state) :
  wp (wait_dialog_gone c o m attempts) s (fun _ _ tr => no_click tr).
Proof.
  revert s. induction attempts as [|a attempts IH]; intros s; cbn [wait_dialog_gone].
  - apply wp_ret. constructor.
  - wp_run.
    all: first
      [ solve [repeat (apply Forall_cons_2; [reflexivity|]); apply Forall_nil_2]
      | eapply wp_mono; [apply IH|]; cbn beta; intros ? ? ? Hn; cbn [app];
        repeat (apply Forall_cons_2; [reflexivity|]); exact Hn ].
Qed.

Lemma execute_chat_clear_order (s : state) :
  let clear := Locator CLEAR_CHAT_BUTTON_SELECTOR in
  let confirm := Locator CLEAR_CHAT_CONFIRM_BUTTON_SELECTOR in
  wp (_execute_chat_clear clear confirm (Locator OVERLAY_SELECTOR)) s (fun _ _ tr =>
    In (clicks tr)
       [ []; [Click clear (Some CLICK_TIMEOUT_MS)]; [Click confirm (Some CLICK_TIMEOUT_MS)];
         [Click clear (Some CLICK_TIMEOUT_MS); Click confirm (Some CLICK_TIMEOUT_MS)] ]
    /\ preceded_by sees_overlay (clicks_on is_confirm) false tr = true).
Proof.
  cbv zeta. unfold _execute_chat_clear.
  wp_run.
  all: lazymatch goal with
       | |- wp (wait_dialog_gone _ _ _ _) _ _ =>
           eapply wp_mono; [apply wait_dialog_gone_no_click|];
           cbn beta; intros ? ? ?t2 Hn; cbn [app];
           lazymatch goal with
           | |- In (clicks ?tr) _ /\ _ =>
               let pre := split_trace tr t2 in
               replace tr with (pre ++ t2)%list
                 by (cbn [app]; rewrite <- ?app_assoc; reflexivity)
           end;
           rewrite clicks_app, (no_click_clicks _ Hn), app_nil_r,
             (preceded_by_app_quiet _ _ _ _ _ (no_click_on is_confirm _ Hn));
           split; [cbn; auto 6 | reflexivity]
       | |- _ => split; [cbn; auto 6 | reflexivity]
       end.
Qed.

(** The confirmation is clicked only on a dialog that was seen.  In
    [_execute_chat_clear] the clicks are, in order, at most one on the
    clear-chat button and then at most one on the confirm control, and a
    click on the confirm control comes only after the overlay was seen:
    [is_visible] answered true or the wait for it to appear succeeded. *)
Theorem chat_clear_confirms_only_seen_dialog (s : state) :
  let clear := Locator CLEAR_CHAT_BUTTON_SELECTOR in
  let confirm := Locator CLEAR_CHAT_CONFIRM_BUTTON_SELECTOR in
  let tr := trace_of (_execute_chat_clear clear confirm (Locator OVERLAY_SELECTOR) s) in
  In (clicks tr)
     [ []; [Click clear (Some CLICK_TIMEOUT_MS)]; [Click confirm (Some CLICK_TIMEOUT_MS)];
       [Click clear (Some CLICK_TIMEOUT_MS); Click confirm (Some CLICK_TIMEOUT_MS)] ]
  /\ preceded_by sees_overlay (clicks_on is_confirm) false tr = true.
Proof. exact (execute_chat_clear_order s). Qed.

End ResetOrder.

Section ClearChat.
Context `{Browser} `{Config}.

Lemma saw_hidden_app f t1 t2 : saw_hidden f (t1 ++ t2) = saw_hidden f t1 || saw_hidden f t2.
Proof. apply existsb_app. Qed.

(** Proves the goal through a weaker fact [Q] about the next statement. *)
Ltac collapse Q :=
  lazymatch goal with
  | |- wp ?m ?s _ => eapply (wp_mono m s Q)
  end.

(** The three ways a checkpoint ends. *)
Lemma wp_check_disconnect stage (s : state) Q :
  (forall p, Q (Ok tt) (State p (s_cache s))
               [EvOp (CheckClientDisconnected stage) (Ok false)]) ->
  (forall p, Q (Raise (ClientDisconnectedError stage)) (State p (s_cache s))
               [EvOp (CheckClientDisconnected stage) (Ok true)]) ->
  (forall e p, Q (Raise e) (State p (s_cache s))
                 [EvOp (CheckClientDisconnected stage) (Raise e)]) ->
  wp (_check_disconnect stage) s Q.
Proof.
  intros Hgo Hstop Herr. unfold _check_disconnect. wp_run.
  - apply Hstop.
  - apply Hgo.
  - apply Herr.
Qed.

(** The handler of [clear_chat_history] always ends in an error. *)
Ltac clear_handler_raises :=
  repeat first [wp_step | unfold is_disconnect_like at 1]; intros [=].

Lemma clear_chat_history_spec (s : state) :
  wp clear_chat_history s (fun res _ tr =>
    res = Ok tt ->
    (clear_unavailable tr = true /\ dialog_untouched tr = true)
    \/ (saw_hidden is_confirm tr = true /\ saw_hidden is_overlay tr = true)).
Proof.
  unfold clear_chat_history.
  apply wp_bind, wp_log. cbn beta iota.
  apply wp_bind, wp_check_disconnect;
    [intros p | intros p; intros [=] | intros e p; intros [=]]; cbn beta iota.
  apply wp_try_except, wp_bind.
  (* the submit button, when it stops a reply that is still going on *)
  collapse (fun (r : result unit) (_ : state) t => r = Ok tt /\ existsb dialog_click t = false).
  { wp_run; split; reflexivity. }
  cbn beta. intros r1 s1 t1 [-> Hq1].
  apply wp_bind.
  (* is the clear-chat button enabled? *)
  collapse (fun (r : result bool) (_ : state) t =>
              forall can, r = Ok can ->
                existsb dialog_click t = false
                /\ (can = false -> clear_unavailable t = true)).
  { wp_run; intros can [= <-]; split; try reflexivity; discriminate. }
  cbn beta. intros [can|e] s2 t2 Hcan; [|clear_handler_raises].
  destruct (Hcan can eq_refl) as [Hq2 Hun].
  apply wp_bind, wp_check_disconnect;
    [intros p' | intros p'; clear_handler_raises | intros e p'; clear_handler_raises];
    cbn beta iota.
  destruct can; cbn [when].
  - apply wp_bind.
    eapply wp_mono; [apply execute_chat_clear_spec|].
    cbn beta. intros [[]|e] s3 t3 [(_ & _ & _ & Hok) _]; [|clear_handler_raises].
    destruct (Hok eq_refl) as [Hc Ho].
    collapse (fun (r : result unit) (_ : state) (t : list event) => True); [exact I|].
    cbn beta. intros [[]|e] s4 t4 _; [|clear_handler_raises].
    intros _. right. rewrite !saw_hidden_app, Hc, Ho.
    repeat rewrite ?orb_true_r, ?orb_true_l. split; reflexivity.
  - apply wp_ret. intros _. left. unfold clear_unavailable, dialog_untouched in *.
    rewrite !existsb_app, Hq1, Hq2, (Hun eq_refl). cbn.
    repeat rewrite ?orb_true_r, ?orb_true_l. split; reflexivity.
Qed.

(** A normal return of [clear_chat_history] means one of two things: the
    clear-chat button never became enabled and neither it nor the confirm
    control was clicked, or the confirm control and the overlay were both
    seen hidden. *)
Theorem chat_cleared_or_unavailable (s : state) :
  let r := clear_chat_history s in
  res_of r = Ok tt ->
  (clear_unavailable (trace_of r) = true /\ dialog_untouched (trace_of r) = true)
  \/ (saw_hidden is_confirm (trace_of r) = true /\ saw_hidden is_overlay (trace_of r) = true).
Proof. exact (clear_chat_history_spec s). Qed.

End ClearChat.


(** ** The response *)

Section Response.
Context `{Browser} `{Config}.

Ltac find_in := cbn; repeat first [left; reflexivity | right].

(** What [get_response] hands back.  A normal return is either the empty
    string, after a snapshot tagged as an empty response, or the final
    content as it was read, which is then not blank, with no error logged.
    An error is always logged before it is passed on, and unless it is a
    disconnection a snapshot of the failure is requested first. *)
Theorem get_response_result (s : state) :
  let r := get_response s in
  let tr := trace_of r in
  (forall content, res_of r = Ok content ->
     (content = "" /\ In (SaveErrorSnapshot "empty_response") (ops_of tr))
     \/ (strip content <> ""
         /\ In (EvOp GetFinalResponseContent (Ok (Some content))) tr
         /\ logged ERROR tr = []))
  /\ (forall e, res_of r = Raise e ->
        logged ERROR tr <> []
        /\ (is_disconnect e = true
            \/ In (SaveErrorSnapshot "get_response_error") (ops_of tr))).
Proof.
  cbv zeta.
  change (wp get_response s (fun res _ tr =>
    (forall content, res = Ok content ->
       (content = "" /\ In (SaveErrorSnapshot "empty_response") (ops_of tr))
       \/ (strip content <> ""
           /\ In (EvOp GetFinalResponseContent (Ok (Some content))) tr
           /\ logged ERROR tr = []))
    /\ (forall e, res = Raise e ->
          logged ERROR tr <> []
          /\ (is_disconnect e = true
              \/ In (SaveErrorSnapshot "get_response_error") (ops_of tr))))).
  unfold get_response.
  wp_run.
  all: split; [intros content [= <-] | intros e' [= <-]].
  all: try (left; split; [reflexivity | find_in]; fail).
  all: try (right; split;
            [ match goal with Hs : String.eqb _ "" = false |- _ =>
                apply String.eqb_neq in Hs; exact Hs end
            | split; [find_in | reflexivity] ]; fail).
  all: split; [cbn; discriminate|].
  all: first [ left; first [ reflexivity
                           | match goal with Hd : negb _ = false |- _ =>
                               apply negb_false_iff in Hd; exact Hd end ]
             | right; find_in ].
Qed.

End Response.


(** ** The removal of the chips *)

Section Removals.
Context `{Browser} `{Config}.

Lemma removals_app t1 t2 : removals (t1 ++ t2) = (removals t1 + removals t2)%nat.
Proof. unfold removals. now rewrite ops_of_app, List.filter_app, length_app. Qed.

(** The loop clicks at most as many times as it was allowed to. *)
Lemma remove_chips_bound n (s : state) :
  wp (remove_chips (Locator MAT_CHIP_REMOVE_BUTTON_SELECTOR) n) s
     (fun _ _ tr => (removals tr <= n)%nat).
Proof.
  revert s. induction n as [|n IH]; intros s; cbn [remove_chips]; wp_run.
  all: try (cbn; lia).
  eapply wp_mono; [apply IH|]. cbn beta. intros r s' t Hle. cbn [app].
  change (removals (?a :: ?b :: EvOp (Click ?l ?t0) ?x :: ?c :: ?rest))
    with (S (removals rest)).
  lia.
Qed.

Lemma type_stops_no_removal (l : list string) (s : state) :
  wp (for_each l (fun seq =>
        await (Fill (Locator STOP_SEQUENCE_INPUT_SELECTOR) (Lit seq) 3000);;
        await (Press (Locator STOP_SEQUENCE_INPUT_SELECTOR) "Enter" 3000);;
        await (Sleep 200))%io) s
     (fun _ _ tr => removals tr = O).
Proof.
  revert s. induction l as [|x l IH]; intros s; cbn [for_each]; wp_run.
  all: try reflexivity.
  eapply wp_mono; [apply IH|]. cbn beta. intros r s' t Hz. cbn [app]. exact Hz.
Qed.

Lemma sync_stop_sequences_bound stops (s : state) :
  wp (sync_stop_sequences stops) s
     (fun _ _ tr => (removals tr <= initial_chip_count tr + 5)%nat).
Proof.
  unfold sync_stop_sequences.
  apply wp_try_except, wp_bind.
  refine (wp_perform _ _ _ _). intros [n|e] p; cbn beta iota delta [s_page s_cache].
  2:{ wp_run; cbn; lia. }
  apply wp_bind. eapply wp_mono; [apply remove_chips_bound|]. cbn beta.
  intros r1 s1 t1 Hle.
  assert (Hgo : forall rest, removals rest = O ->
            (removals (EvOp (Count (Locator MAT_CHIP_REMOVE_BUTTON_SELECTOR)) (Ok n)
                       :: t1 ++ rest)
             <= initial_chip_count
                  (EvOp (Count (Locator MAT_CHIP_REMOVE_BUTTON_SELECTOR)) (Ok n)
                   :: t1 ++ rest) + 5)%nat).
  { intros rest Hz. unfold initial_chip_count. cbn [omap counted hd].
    change (removals (?a :: ?x)) with (removals x).
    rewrite removals_app, Hz.
    change (hd _ _) with n. lia. }
  destruct r1 as [[]|e].
  2:{ wp_run; rewrite <- ?app_assoc; cbn [app]; apply Hgo; reflexivity. }
  apply wp_bind. destruct (bool_decide (stops = ∅)); cbn [negb when].
  - wp_run. rewrite <- ?app_assoc; cbn [app]. apply Hgo. reflexivity.
  - apply wp_bind.
    refine (wp_perform _ _ _ _). intros [v|e] p'; cbn beta iota delta [s_page s_cache].
    2:{ wp_run; rewrite <- ?app_assoc; cbn [app]; apply Hgo; reflexivity. }
    eapply wp_mono; [apply type_stops_no_removal|]. cbn beta.
    intros [[]|e] s2 t2 Hz;
      wp_run; rewrite <- ?app_assoc; cbn [app]; apply Hgo;
      change (removals (?a :: ?x)) with (removals x); now rewrite removals_app, Hz.
Qed.

(** The removal of the chips is bounded: during [_adjust_stop_sequences]
    the remove button is clicked at most five times more than the number
    of chips counted at the start, whatever the page answers afterwards. *)
Theorem chip_removal_bounded (stop_sequences : pyval) (s : state) :
  let tr := trace_of (_adjust_stop_sequences stop_sequences s) in
  (removals tr <= initial_chip_count tr + 5)%nat.
Proof.
  cbv zeta.
  change (wp (_adjust_stop_sequences stop_sequences) s
            (fun _ _ tr => (removals tr <= initial_chip_count tr + 5)%nat)).
  unfold _adjust_stop_sequences.
  apply wp_bind, wp_log. cbn beta iota.
  apply wp_bind, wp_cache_get. cbn beta iota.
  match goal with |- wp (if ?b then _ else _) _ _ => destruct b end.
  - apply wp_log. cbn. lia.
  - eapply wp_mono; [apply sync_stop_sequences_bound|]. cbn beta.
    intros r s' t Hle. exact Hle.
Qed.

End Removals.


(** ** The upload strategies *)

Section UploadStrategies.
Context `{Browser} `{Config}.

Lemma true_only_after_app_r p res (s' : state) t1 t2 :
  true_only_after p res s' t2 -> true_only_after p res s' (t1 ++ t2).
Proof.
  intros [Hb Ht]. split; [exact Hb|]. intros Hr. rewrite existsb_app, (Ht Hr).
  apply orb_true_r.
Qed.

(** A loop that stops at the first success inherits the guarantee of its
    body. *)
Lemma first_success_true_only_after {A} p (l : list A) (body : A -> M bool) :
  (forall x (s : state), In x l -> wp (body x) s (true_only_after p)) ->
  forall s : state, wp (first_success l body) s (true_only_after p).
Proof.
  induction l as [|x l IH]; intros Hbody s; cbn [first_success].
  - apply wp_ret. split; [eauto | discriminate].
  - apply wp_bind. eapply wp_mono; [apply Hbody; now left|]. cbn beta.
    intros r s1 t1 [(b & ->) Ht]. destruct b.
    + apply wp_ret. rewrite app_nil_r. split; [eauto | exact Ht].
    + eapply wp_mono; [apply IH; intros y s0 Hy; apply Hbody; now right|]. cbn beta.
      intros r2 s2 t2 Hpost. now apply true_only_after_app_r.
Qed.

Ltac handed_leaf :=
  split;
  [ eexists; reflexivity
  | intros Hr; try discriminate Hr;
    cbn [existsb hands_over app String.eqb Ascii.eqb Bool.eqb andb];
    rewrite ?(bool_decide_eq_true_2 _ eq_refl);
    repeat rewrite ?orb_true_r, ?orb_true_l; reflexivity ].

Lemma try_file_chooser_method1_spec l image_list (s : state) :
  wp (_try_file_chooser_method1 l image_list) s (true_only_after (hands_over image_list)).
Proof. unfold _try_file_chooser_method1. wp_run. all: handed_leaf. Qed.

Lemma try_file_chooser_method2_spec l image_list (s : state) :
  wp (_try_file_chooser_method2 l image_list) s (true_only_after (hands_over image_list)).
Proof. unfold _try_file_chooser_method2. wp_run. all: handed_leaf. Qed.

Lemma try_standard_file_chooser_spec image_list (s : state) :
  wp (_try_standard_file_chooser image_list) s (true_only_after (hands_over image_list)).
Proof.
  unfold _try_standard_file_chooser.
  apply wp_bind, wp_log. cbn beta iota.
  eapply wp_mono; [|intros r s' t Hp; apply (true_only_after_app_r _ _ _ [_] _ Hp)].
  apply (first_success_true_only_after (hands_over image_list)). intros sel s0 _.
  wp_run.
  all: try solve [handed_leaf].
  all: eapply wp_mono; [apply try_file_chooser_method1_spec|]; cbn beta;
       intros r1 s1 t1 [(b1 & ->) Ht1]; destruct b1.
  all: try (apply wp_ret; rewrite app_nil_r;
            split; [eauto|]; intros _; rewrite !existsb_app, (Ht1 eq_refl);
            repeat rewrite ?orb_true_r, ?orb_true_l; reflexivity).
  all: eapply wp_mono; [apply try_file_chooser_method2_spec|]; cbn beta;
       intros r2 s2 t2 [(b2 & ->) Ht2];
       split; [eauto|]; intros Hr; rewrite !existsb_app, (Ht2 Hr);
       repeat rewrite ?orb_true_r, ?orb_true_l; reflexivity.
Qed.

Lemma try_drag_drop_upload_spec image_list (s : state) :
  wp (_try_drag_drop_upload image_list) s (true_only_after (hands_over image_list)).
Proof.
  unfold _try_drag_drop_upload.
  apply wp_bind, wp_log. cbn beta iota.
  apply wp_try_except.
  eapply wp_mono.
  - apply (first_success_true_only_after (hands_over image_list)). intros sel s0 _. wp_run. all: handed_leaf.
  - cbn beta. intros [b|e] s' t [(b' & Hb) Ht]; [|discriminate Hb].
    apply (true_only_after_app_r _ _ _ [_]). split; [eauto | exact Ht].
Qed.

(** The check for signs of an upload always answers. *)
Lemma verify_file_upload_success_returns (s : state) :
  wp _verify_file_upload_success s (fun r _ _ => exists b, r = Ok b).
Proof.
  unfold _verify_file_upload_success. apply wp_try_except. unfold wp at 1.
  match goal with |- match res_of ?x with _ => _ end => destruct x as [[[b|e] s1] t1] end;
    cbn [res_of state_of trace_of fst snd]; [eauto|].
  wp_run. eauto.
Qed.

Lemma try_direct_file_input_spec image_list (s : state) :
  wp (_try_direct_file_input image_list) s (true_only_after (hands_over image_list)).
Proof.
  unfold _try_direct_file_input.
  apply wp_bind, wp_log. cbn beta iota.
  apply wp_bind, wp_try_except, wp_bind.
  eapply (wp_mono _ _ (fun (r : result (list locator)) (_ : state) (_ : list event) => True));
    [exact I|].
  cbn beta. intros [inputs|e] s1 t1 _.
  2:{ wp_run. handed_leaf. }
  destruct inputs as [|input inputs].
  { wp_run. handed_leaf. }
  apply wp_bind, wp_log. cbn beta iota.
  eapply wp_mono.
  - apply (first_success_true_only_after (hands_over image_list)). intros file_input s0 _.
    wp_run.
    all: try solve [handed_leaf].
    all: eapply wp_mono; [apply verify_file_upload_success_returns|]; cbn beta;
         intros r2 s2 t2 (b2 & ->); destruct b2; wp_run;
         (split; [eexists; reflexivity|]); intros Hr; try discriminate Hr;
         rewrite <- ?app_assoc; cbn [app existsb hands_over];
         rewrite ?(bool_decide_eq_true_2 _ eq_refl);
         repeat rewrite ?orb_true_r, ?orb_true_l; reflexivity.
  - cbn beta. intros [b|e] s2 t2 [(b' & Hb) Ht]; [|discriminate Hb].
    apply wp_ret. split; [eauto|]. intros Hr.
    rewrite !existsb_app, (Ht Hr). repeat rewrite ?orb_true_r, ?orb_true_l. reflexivity.
Qed.

Lemma try_multiple_upload_methods_spec image_list (s : state) :
  wp (_try_multiple_upload_methods image_list) s (true_only_after (hands_over image_list)).
Proof.
  unfold _try_multiple_upload_methods.
  apply wp_bind, wp_log. cbn beta iota. apply wp_bind, wp_log. cbn beta iota.
  apply wp_bind. eapply wp_mono; [apply try_direct_file_input_spec|]. cbn beta.
  intros r1 s1 t1 [(b1 & ->) Ht1]. destruct b1.
  { apply wp_ret. split; [eauto|]. intros _.
    rewrite <- ?app_assoc. cbn [app existsb hands_over orb].
    rewrite !existsb_app, (Ht1 eq_refl). apply orb_true_l. }
  apply wp_bind, wp_log. cbn beta iota.
  apply wp_bind. eapply wp_mono; [apply try_standard_file_chooser_spec|]. cbn beta.
  intros r2 s2 t2 [(b2 & ->) Ht2]. destruct b2.
  { apply wp_ret. split; [eauto|]. intros _.
    rewrite !existsb_app, (Ht2 eq_refl). repeat rewrite ?orb_true_r, ?orb_true_l. reflexivity. }
  apply wp_bind, wp_log. cbn beta iota.
  apply wp_bind. eapply wp_mono; [apply try_drag_drop_upload_spec|]. cbn beta.
  intros r3 s3 t3 [(b3 & ->) Ht3]. destruct b3.
  { apply wp_ret. split; [eauto|]. intros _.
    rewrite !existsb_app, (Ht3 eq_refl). repeat rewrite ?orb_true_r, ?orb_true_l. reflexivity. }
  wp_run. split; [eauto | discriminate].
Qed.

(** An upload is reported only after the files were handed over.
    [_try_multiple_upload_methods] always answers, and it answers true only
    when [set_input_files] on an input, [set_files] on a file chooser or a
    ['drop'] event succeeded with exactly the files it was given. *)
Theorem upload_reported_only_after_hand_over (image_list : list string) (s : state) :
  let r := _try_multiple_upload_methods image_list s in
  (exists b, res_of r = Ok b)
  /\ (res_of r = Ok true -> existsb (hands_over image_list) (trace_of r) = true).
Proof. exact (try_multiple_upload_methods_spec image_list s). Qed.

End UploadStrategies.


(** ** Diagnosis, function button and acknowledgement *)

Section Passive.
Context `{Browser} `{Config}.

Lemma passive_app t1 t2 : passive (t1 ++ t2) = passive t1 && passive t2.
Proof. unfold passive, ops_of. rewrite omap_app. apply forallb_app. Qed.

Lemma passive_post_bind {A B} (m : M A) (f : A -> M B) (s : state) :
  wp m s (passive_post s) ->
  (forall a s1, wp (f a) s1 (passive_post s1)) ->
  wp (bind m f) s (passive_post s).
Proof.
  intros Hm Hf. apply wp_bind. eapply wp_mono; [exact Hm|]. cbn beta.
  intros r s1 t1 ((a & ->) & Hc & Hp).
  eapply wp_mono; [apply Hf|]. cbn beta. intros r2 s2 t2 (Ha & Hc2 & Hp2).
  split; [exact Ha|]. split; [congruence|]. now rewrite passive_app, Hp, Hp2.
Qed.

Lemma passive_log lv msg (s : state) : wp (log lv msg) s (passive_post (A := unit) s).
Proof. apply wp_log. repeat split. eauto. Qed.

Lemma passive_for_each_log (l : list string) (s : state) :
  wp (for_each l (fun x => log INFO x)) s (passive_post s).
Proof.
  revert s. induction l as [|x l IH]; intros s; cbn [for_each].
  - apply wp_ret. repeat split. eauto.
  - apply passive_post_bind; [apply passive_log | intros _ s1; apply IH].
Qed.

Ltac passive_leaf := split; [eexists; reflexivity | split; reflexivity].

Lemma diagnose_loop_passive l found detailed (s : state) :
  wp (diagnose_loop l found detailed) s (passive_post s).
Proof.
  revert found detailed s. induction l as [|[name sel] l IH]; intros found detailed s;
    cbn [diagnose_loop].
  - apply wp_ret. repeat split. eauto.
  - apply passive_post_bind; [|intros a s1; apply IH].
    wp_run. all: passive_leaf.
Qed.

Lemma diagnose_upload_capability_spec (s : state) :
  wp _diagnose_upload_capability s (passive_post s).
Proof.
  unfold _diagnose_upload_capability.
  apply passive_post_bind; [apply passive_log|]. intros _ s1.
  apply passive_post_bind; [apply diagnose_loop_passive|]. intros [found detailed] s2.
  apply passive_post_bind.
  - destruct found as [|f found]; [apply passive_log|].
    apply passive_post_bind; [apply passive_log|]. intros _ s3.
    apply passive_post_bind; [apply passive_for_each_log|]. intros _ s4.
    destruct detailed as [|d detailed].
    + apply wp_ret. repeat split. eauto.
    + apply passive_post_bind; [apply passive_log|]. intros _ s5.
      apply passive_for_each_log.
  - intros _ s3. wp_run. all: passive_leaf.
Qed.

(** The diagnosis of the upload controls only looks at the page: it ends
    normally whatever the page answers, it leaves the cache alone, and
    every operation it performs is a count, a visibility or enabled-state
    check, a text read, or a read of the page's address or title. *)
Theorem upload_diagnosis_is_passive (s : state) :
  let r := _diagnose_upload_capability s in
  res_of r = Ok tt
  /\ s_cache (state_of r) = s_cache s
  /\ forallb is_observation (ops_of (trace_of r)) = true.
Proof.
  cbv zeta. pose proof (diagnose_upload_capability_spec s) as Hs. unfold wp in Hs.
  destruct Hs as ((a & Ha) & Hc & Hp). destruct a. auto.
Qed.

End Passive.

Section Agree.
Context `{Browser} `{Config}.

Lemma successful_clicks_app t1 t2 :
  successful_clicks (t1 ++ t2) = (successful_clicks t1 + successful_clicks t2)%nat.
Proof. unfold successful_clicks. now rewrite List.filter_app, length_app. Qed.

Lemma first_success_agree {A} sels (l : list A) (body : A -> M bool) :
  (forall x (s : state), In x l -> wp (body x) s (agree_post sels)) ->
  forall s : state, wp (first_success l body) s (agree_post sels).
Proof.
  induction l as [|x l IH]; intros Hbody s; cbn [first_success].
  - apply wp_ret. split; [exists false; split; reflexivity | reflexivity].
  - apply wp_bind. eapply wp_mono; [apply Hbody; now left|]. cbn beta.
    intros r s1 t1 [(b & -> & Hn) Ht]. destruct b.
    + apply wp_ret. rewrite app_nil_r. split; [exists true; split; [reflexivity | exact Hn] | exact Ht].
    + eapply wp_mono; [apply IH; intros y s0 Hy; apply Hbody; now right|]. cbn beta.
      intros r2 s2 t2 [(b2 & -> & Hn2) Ht2].
      split.
      * exists b2. split; [reflexivity|]. rewrite successful_clicks_app, Hn, Hn2. reflexivity.
      * now rewrite forallb_app, Ht, Ht2.
Qed.

Lemma handle_copyright_acknowledgement_spec (s : state) :
  wp _handle_copyright_acknowledgement s (fun res _ tr =>
    res = Ok tt
    /\ (successful_clicks tr <= 1)%nat
    /\ forallb (fun e => negb (is_click_event e) || clicks_first_of acknow_selectors e) tr = true).
Proof.
  unfold _handle_copyright_acknowledgement.
  apply wp_try_except, wp_bind. eapply wp_mono.
  - apply (first_success_agree acknow_selectors). intros sel s0 Hsel.
    assert (Hin : bool_decide (sel ∈ acknow_selectors) = true).
    { apply bool_decide_eq_true_2, list_elem_of_In, Hsel. }
    wp_run.
    all: split; [eexists; split; reflexivity
                | cbn [app forallb is_click_event is_click clicks_first_of negb orb andb];
                  rewrite ?Hin; reflexivity].
  - cbn beta. intros r s1 t1 [(b & -> & Hn) Ht]. destruct b; wp_run.
    all: rewrite ?successful_clicks_app, ?forallb_app, ?Hn, ?Ht; cbn; repeat split; lia.
Qed.

(** The copyright acknowledgement never fails and agrees at most once: it
    ends normally whatever the page answers, at most one of its clicks is
    accepted, and each click is on the first element matching one of the
    acknowledgement selectors. *)
Theorem copyright_acknowledged_at_most_once (s : state) :
  let r := _handle_copyright_acknowledgement s in
  res_of r = Ok tt
  /\ (successful_clicks (trace_of r) <= 1)%nat
  /\ forallb (fun e => negb (is_click_event e) || clicks_first_of acknow_selectors e)
       (trace_of r) = true.
Proof. exact (handle_copyright_acknowledgement_spec s). Qed.

Lemma find_and_click_function_button_spec (s : state) :
  wp _find_and_click_function_button s (fun res _ tr =>
    (exists b, res = Ok b)
    /\ (res = Ok true -> existsb pressed_function_button tr = true)
    /\ (res = Ok false -> In "❌ 无法找到任何可用的功能按钮" (logged ERROR tr))).
Proof.
  unfold _find_and_click_function_button.
  apply wp_bind. eapply wp_mono.
  - apply (first_success_true_only_after pressed_function_button). intros sel s0 Hsel.
    assert (Hin : bool_decide (sel ∈ function_button_selectors) = true).
    { apply bool_decide_eq_true_2, list_elem_of_In, Hsel. }
    wp_run.
    all: split; [eexists; reflexivity|]; intros Hr; try discriminate Hr;
         cbn [app existsb pressed_function_button ok_click clicks_first_of andb orb];
         rewrite ?Hin; reflexivity.
  - cbn beta. intros r s1 t1 [(b & ->) Ht]. destruct b; wp_run.
    + rewrite app_nil_r. split; [eauto|]. split; [exact Ht | discriminate].
    + split; [eauto|]. split; [discriminate|]. intros _.
      rewrite logged_app. apply in_or_app. right. now left.
Qed.

(** The function button counts as found only when a click on it was
    accepted.  [_find_and_click_function_button] always answers; it
    answers true only after an accepted click on the first element matching
    one of its selectors, and when it answers false it has logged that no
    usable button was found. *)
Theorem function_button_found_means_clicked (s : state) :
  let r := _find_and_click_function_button s in
  (exists b, res_of r = Ok b)
  /\ (res_of r = Ok true -> existsb pressed_function_button (trace_of r) = true)
  /\ (res_of r = Ok false -> In "❌ 无法找到任何可用的功能按钮" (logged ERROR (trace_of r))).
Proof. exact (find_and_click_function_button_spec s). Qed.

End Agree.

(* ===================================================================== *)
#[local] Existing Instance Sim.browser.
#[local] Instance sim_config : Config := Sim.config false false.

(** * 8. Sessions on the simulated page *)






(** Against C8 as stated.  The prompt field cannot be focused: the attempt
    ends before the key press, no verification takes place, and the submit
    control is clicked. *)
Lemma fallback_click_without_verification :
  let prompt_textarea_locator := Locator PROMPT_TEXTAREA_SELECTOR in
  let submit_button_locator := Locator SUBMIT_BUTTON_SELECTOR in
  let s := State (Sim.start Scripts.focus_fails {[ "prompt" := "hi" ]} []) ∅ in
  let r := submit_by_shortcut_or_click prompt_textarea_locator submit_button_locator s in
  res_of (press_shortcut prompt_textarea_locator s) = Raise Sim.timeout_error
  /\ ops_of (trace_of r)
     = [ GetEnv "HOST_OS_FOR_SHORTCUT"; PageEvaluate JsUserAgentDataPlatform;
         Focus prompt_textarea_locator 5000; Click submit_button_locator (Some 5000) ].
Proof. vm_compute. repeat split; reflexivity. Qed.

(** C2 on a session.  The caller goes away while the prompt field is being
    focused, and the checkpoint after the focus sees it.  The error raised
    there is caught in [_try_shortcut_submit]: what follows the checkpoint
    starts with the record of a failed shortcut, and goes on to click the
    submit control, which submits the prompt. *)
Lemma disconnect_swallowed_by_shortcut_submit :
  let r := Sim.run (submit_prompt "hi" []) (Sim.start (Scripts.hangs_up_at 12) ∅ []) ∅ in
  exists rest,
    after_disconnect (trace_of r)
    = Some (EvLog WARNING "快捷键提交失败" :: rest)
    /\ filter (fun o => is_mutation o = true) (ops_of rest)
       = [Click (Locator SUBMIT_BUTTON_SELECTOR) (Some 5000)]
    /\ In (EvOp (CheckClientDisconnected "After Input Focus") (Ok true)) (trace_of r)
    /\ Sim.generating (s_page (state_of r)) = true.
Proof. eexists. vm_compute. repeat split; try reflexivity. tauto. Qed.

(** The dialog never closes: three polls, two pauses, a snapshot, an
    error. *)
Example reset_gives_up_after_three_polls :
  let r := Sim.run (_execute_chat_clear (Locator CLEAR_CHAT_BUTTON_SELECTOR)
                      (Locator CLEAR_CHAT_CONFIRM_BUTTON_SELECTOR) (Locator OVERLAY_SELECTOR))
                   (Sim.start Scripts.dialog_stays ∅ []) ∅ in
  res_of r = Raise (PyException "达到最大重试次数。清空聊天确认对话框未消失。")
  /\ schedule (trace_of r) = [Poll; Backoff; Poll; Backoff; Poll]
  /\ timeouts (trace_of r) = 3%nat
  /\ last (ops_of (trace_of r)) = Some (SaveErrorSnapshot dialog_timeout_tag).
Proof. vm_compute. repeat split; reflexivity. Qed.

(** No upload control on the page: the upload fails, and the prompt is
    submitted. *)
Example upload_fails_and_prompt_is_submitted :
  let r := Sim.run (submit_prompt "hi" ["f.png"]) (Sim.start Sim.plain ∅ []) ∅ in
  res_of r = Ok tt
  /\ logged ERROR (trace_of r)
     = ["❌ 无法找到任何可用的功能按钮"; "❌ 无法找到功能按钮，可能此账号不支持文件上传"]
  /\ In (KeyboardPress "Control+Enter") (ops_of (trace_of r))
  /\ Sim.generating (s_page (state_of r)) = true.
Proof. vm_compute. repeat split; try reflexivity. tauto. Qed.

(** ** Instances of the theorems on simulated sessions *)

(** The outcome of a run, from its result. *)
Lemma run_eta {S A} (x : result A * S * list event) (r : result A) :
  res_of x = r -> x = (r, state_of x, trace_of x).
Proof. destruct x as [[r0 s0] t0]. cbn. intros <-. reflexivity. Qed.

Example temperature_committed_after_read_back :
  let s := State (Sim.start (Scripts.displays "2") {[ "temperature" := "1" ]} []) ∅ in
  let r := _adjust_temperature (PFloat (5 # 2)) s in
  res_of r = Ok tt
  /\ s_cache (state_of r) !! "temperature" = Some (CNum (NFloat (Finite 2)))
  /\ last_ui (trace_of r)
     = Some (EvOp (InputValue (Locator TEMPERATURE_INPUT_SELECTOR) 3000) (Ok "2"))
  /\ logged WARNING (trace_of r) = [out_of_range_temperature].
Proof. vm_compute. repeat split; reflexivity. Qed.






Lemma shortcut_fallback_witness :
  let prompt_textarea_locator := Locator PROMPT_TEXTAREA_SELECTOR in
  let submit_button_locator := Locator SUBMIT_BUTTON_SELECTOR in
  let s := State (Sim.start (Scripts.prompt_unreadable_from 6) {[ "prompt" := "hi" ]} []) ∅ in
  let p := press_shortcut prompt_textarea_locator s in
  let v := shortcut_verification prompt_textarea_locator "hi" (state_of p) in
  let r := submit_by_shortcut_or_click prompt_textarea_locator submit_button_locator s in
  p = (Ok "hi", state_of p, trace_of p)
  /\ v = (Raise Sim.timeout_error, state_of v, trace_of v)
  /\ res_of (_try_shortcut_submit prompt_textarea_locator s) = Ok true
  /\ clicked (trace_of r) = false /\ res_of r = Ok tt.
Proof.
  cbv zeta.
  set (l := Locator PROMPT_TEXTAREA_SELECTOR).
  set (s := @State Sim.browser
              (Sim.start (Scripts.prompt_unreadable_from 6) {[ "prompt" := "hi" ]} []) ∅).
  assert (Hp : res_of (press_shortcut l s) = Ok "hi") by (vm_compute; reflexivity).
  assert (Hv : res_of (shortcut_verification l "hi" (state_of (press_shortcut l s)))
               = Raise Sim.timeout_error) by (vm_compute; reflexivity).
  apply run_eta in Hp, Hv.
  split; [exact Hp|]. split; [exact Hv|].
  exact (proj2 (proj1 (shortcut_fallback l (Locator SUBMIT_BUTTON_SELECTOR) s)
                  _ _ _ _ _ _ Hp Hv)).
Defined.


(** ** Instances of the further properties *)


(** No effort requested and the budget off by default: only the toggle is
    driven.  An integer effort: it is what the budget field receives. *)
Lemma thinking_budget_written_as_resolved_witness :
  let s := State (Sim.start Sim.plain ∅ []) ∅ in
  let request : gmap string pyval := {[ "reasoning_effort" := PInt 1024 ]} in
  ops_of (trace_of (_handle_thinking_budget ∅ s))
  = ops_of (trace_of (_control_thinking_budget_toggle false s))
  /\ Forall (eq (StrOf (NInt 1024)))
       (filled is_budget_input (trace_of (_handle_thinking_budget request s))).
Proof.
  cbv zeta. split.
  - apply (proj1 (thinking_budget_written_as_resolved ∅ _)); reflexivity.
  - apply (proj2 (proj2 (thinking_budget_written_as_resolved _ _)) (PInt 1024) (NInt 1024));
      [reflexivity | discriminate | vm_compute; reflexivity].
Defined.

(** The reset of a page that answers: the dialog was seen closed. *)
Lemma chat_cleared_or_unavailable_witness :
  let r := clear_chat_history (State (Sim.start Sim.plain ∅ []) ∅) in
  res_of r = Ok tt
  /\ ((clear_unavailable (trace_of r) = true /\ dialog_untouched (trace_of r) = true)
      \/ (saw_hidden is_confirm (trace_of r) = true /\ saw_hidden is_overlay (trace_of r) = true)).
Proof.
  cbv zeta.
  assert (Hr : res_of (clear_chat_history (@State Sim.browser (Sim.start Sim.plain ∅ []) ∅))
               = Ok tt) by (vm_compute; reflexivity).
  split; [exact Hr|].
  exact (chat_cleared_or_unavailable _ Hr).
Defined.

(** A page that shows no answer: [get_response] returns the empty string
    after asking for a snapshot. *)
Lemma get_response_result_witness :
  let r := get_response (State (Sim.start Sim.plain ∅ []) ∅) in
  res_of r = Ok ""
  /\ (("" = "" /\ In (SaveErrorSnapshot "empty_response") (ops_of (trace_of r)))
      \/ (strip "" <> ""
          /\ In (EvOp GetFinalResponseContent (Ok (Some ""))) (trace_of r)
          /\ logged ERROR (trace_of r) = [])).
Proof.
  cbv zeta.
  assert (Hr : res_of (get_response (@State Sim.browser (Sim.start Sim.plain ∅ []) ∅)) = Ok "")
    by (vm_compute; reflexivity).
  split; [exact Hr|].
  exact (proj1 (get_response_result _) "" Hr).
Defined.

(** A page on which every selector matches: the first file input takes the
    files, and the upload is reported. *)
Lemma upload_reported_only_after_hand_over_witness :
  let r := _try_multiple_upload_methods ["f.png"] (State (Sim.start one_of_each ∅ []) ∅) in
  res_of r = Ok true /\ existsb (hands_over ["f.png"]) (trace_of r) = true.
Proof.
  cbv zeta.
  assert (Hr : res_of (_try_multiple_upload_methods ["f.png"]
                         (@State Sim.browser (Sim.start one_of_each ∅ []) ∅)) = Ok true)
    by (vm_compute; reflexivity).
  split; [exact Hr|].
  exact (proj2 (upload_reported_only_after_hand_over _ _) Hr).
Defined.

(** On the same page the first function button is pressed. *)
Lemma function_button_found_means_clicked_witness :
  let r := _find_and_click_function_button (State (Sim.start one_of_each ∅ []) ∅) in
  res_of r = Ok true /\ existsb pressed_function_button (trace_of r) = true.
Proof.
  cbv zeta.
  assert (Hr : res_of (_find_and_click_function_button
                         (@State Sim.browser (Sim.start one_of_each ∅ []) ∅)) = Ok true)
    by (vm_compute; reflexivity).
  split; [exact Hr|].
  exact (proj1 (proj2 (function_button_found_means_clicked _)) Hr).
Defined.
